(** * Todo service: ownership, tokens and tool handlers

    A shallow embedding of the request handlers of the todo backend
    (routes [todos.py] and [chat.py], tool handlers [todo_tools.py],
    token utilities [jwt.py], the two authentication dependencies
    [dependencies.py] and [middleware.py], and the password checks of
    [auth.py] and [utils.py]).

    Conventions.
    - A [UUID] is its 128-bit integer ([uuid.UUID.int]), a [datetime] the
      number of microseconds since the epoch.
    - The ORM session is explicit state: the rows of the [todos] and [users]
      tables, a log of the session calls made so far, and a schedule of
      faults that decides which awaited session call raises.
    - A Python exception is a [Raise] outcome of the session monad. *)

From stdpp Require Import base option list sorting gmap strings pretty.
From Stdlib Require Import ZArith Btauto.

Open Scope Z_scope.
Open Scope string_scope.

(** ** Identifiers, timestamps and rows *)

Abbreviation UUID := N (only parsing).
Abbreviation datetime := Z (only parsing).

(** Modelled from the spec: the table class [Todo] of [app.models.todo] is
    not among the sources.  Its columns are those of the spec's data model
    (identifier, owning user, title, optional description, completed flag,
    created and updated timestamps), which are also the attributes that
    [TodoResponse] (todo.py) reads from the ORM object; a column changes only
    when a handler assigns it. *)
Record Todo := mkTodo {
  todo_id : UUID;
  todo_user_id : UUID;
  todo_title : string;
  todo_description : option string;
  todo_completed : bool;
  todo_created_at : datetime;
  todo_updated_at : datetime
}.

(** Modelled from the spec: the table class [User] of [app.models.user] is
    not among the sources; the handlers read its identifier only. *)
Record User := mkUser {
  user_id_of : UUID;
  user_email : string
}.

#[global] Instance Todo_eq_dec : EqDecision Todo.
Proof. solve_decision. Defined.

#[global] Instance User_eq_dec : EqDecision User.
Proof. solve_decision. Defined.

(** ** Exceptions and responses *)

(** The [detail] of an [HTTPException]: a plain string (dependencies.py,
    middleware.py) or an error body with a code and a message. *)
Inductive Detail :=
| DetailStr (s : string)
| DetailError (code message : string)
| DetailDict (code message : string) (details : list (string * string)).

Inductive Exception :=
| HTTPException (status_code : nat) (detail : Detail)
                (headers : list (string * string))
| ValueError (msg : string)
| TypeError (msg : string)
| PersistenceError (kind msg : string).

#[global] Instance Detail_eq_dec : EqDecision Detail.
Proof. solve_decision. Defined.

#[global] Instance Exception_eq_dec : EqDecision Exception.
Proof. solve_decision. Defined.

(** [str(e)] *)
Definition exn_str (e : Exception) : string :=
  match e with
  | HTTPException _ (DetailStr s) _ => s
  | HTTPException _ (DetailError _ m) _ => m
  | HTTPException _ (DetailDict _ m _) _ => m
  | ValueError m => m
  | TypeError m => m
  | PersistenceError _ m => m
  end.

(** [isinstance(e, ValueError)] *)
Definition is_ValueError (e : Exception) : bool :=
  match e with ValueError _ => true | _ => false end.

(** Modelled from the spec: [error_response] of [app.utils.responses] is not
    among the sources; errors are formatted as
    [{success: false, error: {code, message}}]. *)
Definition error_response (code message : string) : Detail :=
  DetailError code message.

(** What a route puts in [data]: one serialised todo, a list of them, or
    [None].  [TodoResponse.model_validate(todo).model_dump()] carries the
    seven columns of the row, so the row itself stands for it. *)
Inductive Data :=
| DataTodo (t : Todo)
| DataTodos (l : list Todo)
| DataNone.

(** Modelled from the spec: [success_response] of [app.utils.responses] is
    not among the sources; successes are formatted as
    [{success, data, message}]. *)
Record Response := mkResponse {
  resp_success : bool;
  resp_data : Data;
  resp_message : string
}.

Definition success_response (data : Data) (message : string) : Response :=
  mkResponse true data message.

(** ** The session monad *)

Inductive SessionOp := OpExecute | OpAdd | OpDelete | OpCommit | OpRefresh.

Record Session := mkSession {
  todos : list Todo;
  users : list User;
  faults : list (option Exception);
  log : list SessionOp
}.

Inductive Result (A : Type) :=
| Return (a : A)
| Raise (e : Exception).
Arguments Return {A} a.
Arguments Raise {A} e.

Definition M (A : Type) : Type := Session -> Result A * Session.

Definition ret {A} (a : A) : M A := fun s => (Return a, s).

Definition raise {A} (e : Exception) : M A := fun s => (Raise e, s).

Definition bind {A B} (m : M A) (k : A -> M B) : M B :=
  fun s =>
    match m s with
    | (Return a, s') => k a s'
    | (Raise e, s') => (Raise e, s')
    end.

Notation "'let*' x ':=' m 'in' k" := (bind m (fun x => k))
  (at level 10, x name, m at level 100, k at level 200).
Notation "'await' m 'in' k" := (bind m (fun _ => k))
  (at level 10, m at level 100, k at level 200).

(** [try: m except Exception as e: h e] *)
Definition try_except {A} (m : M A) (h : Exception -> M A) : M A :=
  fun s =>
    match m s with
    | (Return a, s') => (Return a, s')
    | (Raise e, s') => h e s'
    end.

(** An awaited session call: it is logged, and the next entry of the fault
    schedule decides whether it raises. *)
Definition await_op (op : SessionOp) : M unit :=
  fun s =>
    let s' := mkSession (todos s) (users s) (tail (faults s)) (log s ++ [op]) in
    match faults s with
    | Some e :: _ => (Raise e, s')
    | _ => (Return tt, s')
    end.

(** ** Queries *)

(** [ORDER BY created_at DESC] *)
Definition created_desc (a b : Todo) : Prop :=
  (todo_created_at b <= todo_created_at a)%Z.

#[global] Instance created_desc_dec a b : Decision (created_desc a b).
Proof. unfold created_desc. apply _. Defined.

Inductive Ordering := Unordered | ByCreatedDesc.

(** [select(Todo).where(...)]: the conditions, and the ordering. *)
Record Select := mkSelect {
  sel_where : Todo -> bool;
  sel_order : Ordering
}.

Definition run_select (q : Select) (rows : list Todo) : list Todo :=
  let hits := List.filter (sel_where q) rows in
  match sel_order q with
  | Unordered => hits
  | ByCreatedDesc => merge_sort created_desc hits
  end.

(** [await session.execute(statement)] *)
Definition execute (q : Select) : M (list Todo) :=
  await await_op OpExecute in
  fun s => (Return (run_select q (todos s)), s).

(** [result.scalar_one_or_none()] *)
Definition scalar_one_or_none {A} (rows : list A) : M (option A) :=
  match rows with
  | [] => ret None
  | [x] => ret (Some x)
  | _ => raise (PersistenceError "MultipleResultsFound"
                  "Multiple rows were found when one or none was required")
  end.

(** [result.scalars().all()] *)
Definition scalars_all {A} (rows : list A) : M (list A) := ret rows.

(** The unit of work flushed by a commit. *)
Inductive Write :=
| Insert (t : Todo)
| Update (t : Todo)
| Delete (t : Todo).

Definition has_id (i : UUID) (t : Todo) : bool := (todo_id t =? i)%N.

Definition apply_write (w : Write) (rows : list Todo) : list Todo :=
  match w with
  | Insert t => rows ++ [t]
  | Update t => map (fun r => if has_id (todo_id t) r then t else r) rows
  | Delete t => List.filter (fun r => negb (has_id (todo_id t) r)) rows
  end.

(** [session.add(obj)]: registers the object, no I/O. *)
Definition session_add (t : Todo) : M unit :=
  fun s => (Return tt, mkSession (todos s) (users s) (faults s) (log s ++ [OpAdd])).

(** [await session.delete(obj)] *)
Definition session_delete (t : Todo) : M unit := await_op OpDelete.

(** [await session.commit()] flushing the pending write [w]; inserting a row
    whose primary key is taken raises. *)
Definition commit (w : option Write) : M unit :=
  await await_op OpCommit in
  fun s =>
    match w with
    | None => (Return tt, s)
    | Some (Insert t) =>
        if existsb (has_id (todo_id t)) (todos s)
        then (Raise (PersistenceError "IntegrityError" "duplicate key"), s)
        else (Return tt,
              mkSession (apply_write (Insert t) (todos s)) (users s) (faults s) (log s))
    | Some w =>
        (Return tt, mkSession (apply_write w (todos s)) (users s) (faults s) (log s))
    end.

(** [await session.refresh(obj)]: reloads the row by primary key. *)
Definition refresh (t : Todo) : M Todo :=
  await await_op OpRefresh in
  fun s =>
    match List.find (has_id (todo_id t)) (todos s) with
    | Some r => (Return r, s)
    | None => (Raise (PersistenceError "InvalidRequestError"
                        "Could not refresh instance"), s)
    end.

(** ** The todo routes (todos.py) *)

(** Request bodies (todo.py). *)
Record TodoCreate := mkTodoCreate {
  tc_title : string;
  tc_description : option string
}.

Record TodoUpdate := mkTodoUpdate {
  tu_title : option string;
  tu_description : option string
}.

(** [if x is not None: field = x] *)
Definition assign_if_provided {A} (x : option A) (old : A) : A :=
  match x with Some v => v | None => old end.

(** [Todo(user_id=..., title=..., description=...)].  Modelled from the
    spec: the defaults of the table class are not among the sources; per the
    spec a new todo has [completed] false and both timestamps set to now.
    The primary key is the fresh value [new_id], the clock reads [now]. *)
Definition new_Todo (new_id : UUID) (now : datetime) (owner : UUID)
    (title : string) (description : option string) (completed : bool) : Todo :=
  mkTodo new_id owner title description completed now now.

Definition create_todo (new_id : UUID) (now : datetime)
    (user_id : UUID) (todo_data : TodoCreate) (current_user : User) : M Response :=
  if negb (user_id_of current_user =? user_id)%N then
    raise (HTTPException 403
             (error_response "FORBIDDEN" "You can only create todos for yourself") [])
  else
    let new_todo :=
      new_Todo new_id now (user_id_of current_user)
               (tc_title todo_data) (tc_description todo_data) false in
    await session_add new_todo in
    await commit (Some (Insert new_todo)) in
    let* new_todo := refresh new_todo in
    ret (success_response (DataTodo new_todo) "Todo created successfully").

Definition list_todos (user_id : UUID) (current_user : User) : M Response :=
  if negb (user_id_of current_user =? user_id)%N then
    raise (HTTPException 403
             (error_response "FORBIDDEN" "You can only access your own todos") [])
  else
    let* result :=
      execute (mkSelect
                 (fun t => (todo_user_id t =? user_id_of current_user)%N)
                 ByCreatedDesc) in
    let* todos := scalars_all result in
    ret (success_response (DataTodos todos) "Todos retrieved successfully").

(** The query shared by the single-resource routes:
    [select(Todo).where(Todo.id == id).where(Todo.user_id == current_user.id)]. *)
Definition owned_todo_query (id owner : UUID) : Select :=
  mkSelect (fun t => (todo_id t =? id)%N && (todo_user_id t =? owner)%N) Unordered.

Definition get_todo (user_id id : UUID) (current_user : User) : M Response :=
  if negb (user_id_of current_user =? user_id)%N then
    raise (HTTPException 403
             (error_response "FORBIDDEN" "You can only access your own todos") [])
  else
    let* result := execute (owned_todo_query id (user_id_of current_user)) in
    let* todo := scalar_one_or_none result in
    match todo with
    | None =>
        raise (HTTPException 404
                 (error_response "NOT_FOUND"
                    "Todo not found or you don't have permission to access it") [])
    | Some todo =>
        ret (success_response (DataTodo todo) "Todo retrieved successfully")
    end.

Definition update_todo (now : datetime) (user_id id : UUID)
    (todo_data : TodoUpdate) (current_user : User) : M Response :=
  if negb (user_id_of current_user =? user_id)%N then
    raise (HTTPException 403
             (error_response "FORBIDDEN" "You can only update your own todos") [])
  else
    let* result := execute (owned_todo_query id (user_id_of current_user)) in
    let* todo := scalar_one_or_none result in
    match todo with
    | None =>
        raise (HTTPException 404
                 (error_response "NOT_FOUND"
                    "Todo not found or you don't have permission to update it") [])
    | Some todo =>
        let todo :=
          mkTodo (todo_id todo) (todo_user_id todo)
                 (assign_if_provided (tu_title todo_data) (todo_title todo))
                 (match tu_description todo_data with
                  | Some d => Some d
                  | None => todo_description todo
                  end)
                 (todo_completed todo) (todo_created_at todo) now in
        await commit (Some (Update todo)) in
        let* todo := refresh todo in
        ret (success_response (DataTodo todo) "Todo updated successfully")
    end.

Definition toggle_todo_completion (now : datetime) (user_id id : UUID)
    (current_user : User) : M Response :=
  if negb (user_id_of current_user =? user_id)%N then
    raise (HTTPException 403
             (error_response "FORBIDDEN" "You can only update your own todos") [])
  else
    let* result := execute (owned_todo_query id (user_id_of current_user)) in
    let* todo := scalar_one_or_none result in
    match todo with
    | None =>
        raise (HTTPException 404
                 (error_response "NOT_FOUND"
                    "Todo not found or you don't have permission to update it") [])
    | Some todo =>
        let todo :=
          mkTodo (todo_id todo) (todo_user_id todo) (todo_title todo)
                 (todo_description todo) (negb (todo_completed todo))
                 (todo_created_at todo) now in
        await commit (Some (Update todo)) in
        let* todo := refresh todo in
        ret (success_response (DataTodo todo) "Todo completion status updated")
    end.

Definition delete_todo (user_id id : UUID) (current_user : User) : M Response :=
  if negb (user_id_of current_user =? user_id)%N then
    raise (HTTPException 403
             (error_response "FORBIDDEN" "You can only delete your own todos") [])
  else
    let* result := execute (owned_todo_query id (user_id_of current_user)) in
    let* todo := scalar_one_or_none result in
    match todo with
    | None =>
        raise (HTTPException 404
                 (error_response "NOT_FOUND"
                    "Todo not found or you don't have permission to delete it") [])
    | Some todo =>
        await session_delete todo in
        await commit (Some (Delete todo)) in
        ret (success_response DataNone "Todo deleted successfully")
    end.

(** ** Dictionaries returned to the chat agent *)

Inductive Scalar :=
| SNone
| SBool (b : bool)
| SInt (z : Z)
| SStr (s : string).

#[global] Instance Scalar_eq_dec : EqDecision Scalar.
Proof. solve_decision. Defined.

(** A value of a handler's result: a scalar, a nested dictionary of scalars
    (["todo"]) or a list of such dictionaries (["todos"]). *)
Inductive Value :=
| Atom (a : Scalar)
| Dict (d : gmap string Scalar)
| DictList (l : list (gmap string Scalar)).

(** A dictionary display [{k1: v1, ...}]. *)
Definition dict {V} (items : list (string * V)) : gmap string V :=
  list_to_map items.

Definition opt_str (o : option string) : Scalar :=
  match o with Some s => SStr s | None => SNone end.

(** [s.lower()] on ASCII text. *)
Definition lower_ascii (c : Ascii.ascii) : Ascii.ascii :=
  let n := Ascii.nat_of_ascii c in
  if (65 <=? n)%nat && (n <=? 90)%nat then Ascii.ascii_of_nat (n + 32) else c.

Fixpoint lower (s : string) : string :=
  match s with
  | EmptyString => EmptyString
  | String c r => String (lower_ascii c) (lower r)
  end.

(** [needle in hay] *)
Fixpoint contains (needle hay : string) : bool :=
  String.prefix needle hay ||
  match hay with
  | EmptyString => false
  | String _ r => contains needle r
  end.

(** ** The chat routes (chat.py) *)

Record ChatRequest := mkChatRequest {
  cr_message : string;
  cr_conversation_id : option string
}.

Record ToolCall := mkToolCall {
  tc_tool : string;
  tc_arguments : gmap string Scalar;
  tc_result : gmap string Value
}.

(** What [chat_service.process_message] hands back, read through
    [result.get("success")], [result.get("error", ...)],
    [result["conversation_id"]], [result["response"]] and
    [result.get("tool_calls", [])]. *)
Record ProcessResult := mkProcessResult {
  pr_success : bool;
  pr_error : option string;
  pr_conversation_id : string;
  pr_response : string;
  pr_tool_calls : list ToolCall
}.

Record ChatResponseData := mkChatResponseData {
  crd_conversation_id : string;
  crd_response : string;
  crd_tool_calls : list ToolCall
}.

Record ChatResponse := mkChatResponse {
  chat_success : bool;
  chat_data : option ChatResponseData;
  chat_message : string
}.

Record Conversation := mkConversation {
  conv_id : UUID;
  conv_user_id : UUID;
  conv_title : option string;
  conv_created_at : datetime;
  conv_updated_at : datetime
}.

Record ConversationItem := mkConversationItem {
  ci_id : string;
  ci_user_id : string;
  ci_title : option string;
  ci_created_at : string;
  ci_updated_at : string
}.

Record ConversationsResponse := mkConversationsResponse {
  convs_success : bool;
  convs_conversations : list ConversationItem;
  convs_total : nat;
  convs_message : string
}.

Section Handlers.

(** The standard library's [UUID(s)] ([None] when it raises [ValueError]),
    [str(uuid)] and [datetime.isoformat()]. *)
Variable UUID_of_str : string -> option UUID.
Variable str_of_UUID : UUID -> string.
Variable isoformat : datetime -> string.

(** The services behind the chat routes ([app.services], not among the
    sources): any session computation. *)
Variable process_message : UUID -> string -> option UUID -> M ProcessResult.
Variable conversations_of : UUID -> Z -> Z -> M (list Conversation).

Definition parse_UUID (s : string) : M UUID :=
  match UUID_of_str s with
  | Some u => ret u
  | None => raise (ValueError "badly formed hexadecimal UUID string")
  end.

Definition chat (user_id : UUID) (request : ChatRequest) (current_user : User)
    : M ChatResponse :=
  if negb (user_id_of current_user =? user_id)%N then
    raise (HTTPException 403
             (DetailDict "FORBIDDEN"
                "You don't have permission to access this user's chat" []) [])
  else
    let* conversation_uuid :=
      match cr_conversation_id request with
      | None => ret None
      | Some "" => ret None
      | Some cid =>
          match UUID_of_str cid with
          | Some u => ret (Some u)
          | None =>
              raise (HTTPException 400
                       (DetailDict "INVALID_INPUT" "Invalid conversation ID format"
                          [("conversation_id", cid)]) [])
          end
      end in
    let* result := process_message user_id (cr_message request) conversation_uuid in
    if negb (pr_success result) then
      let error_message :=
        default "An unexpected error occurred" (pr_error result) in
      if contains "not found" (lower error_message)
         || contains "access denied" (lower error_message)
      then raise (HTTPException 404 (DetailDict "NOT_FOUND" error_message []) [])
      else raise (HTTPException 500 (DetailDict "INTERNAL_ERROR" error_message []) [])
    else
      ret (mkChatResponse true
             (Some (mkChatResponseData (pr_conversation_id result)
                      (pr_response result) (pr_tool_calls result)))
             "Message processed successfully").

Definition list_conversations (user_id : UUID) (limit offset : Z)
    (current_user : User) : M ConversationsResponse :=
  if negb (user_id_of current_user =? user_id)%N then
    raise (HTTPException 403
             (DetailDict "FORBIDDEN"
                "You don't have permission to access this user's conversations" [])
             [])
  else if (limit <? 1)%Z || (100 <? limit)%Z then
    raise (HTTPException 400
             (DetailDict "INVALID_INPUT" "Limit must be between 1 and 100" []) [])
  else if (offset <? 0)%Z then
    raise (HTTPException 400
             (DetailDict "INVALID_INPUT" "Offset must be non-negative" []) [])
  else
    let* conversations := conversations_of user_id limit offset in
    ret (mkConversationsResponse true
           (map (fun conv =>
                   mkConversationItem (str_of_UUID (conv_id conv))
                     (str_of_UUID (conv_user_id conv)) (conv_title conv)
                     (isoformat (conv_created_at conv))
                     (isoformat (conv_updated_at conv)))
                conversations)
           (length conversations)
           "Conversations retrieved successfully").

(** ** The tool handlers (todo_tools.py) *)

Definition failure (message : string) : gmap string Value :=
  dict [("success", Atom (SBool false)); ("error", Atom (SStr message))].

Definition create_todo_handler (new_id : UUID) (now : datetime)
    (user_id : UUID) (title : string) (description : option string)
    : M (gmap string Value) :=
  try_except
    (let todo := new_Todo new_id now user_id title description false in
     await session_add todo in
     await commit (Some (Insert todo)) in
     let* todo := refresh todo in
     ret (dict [("success", Atom (SBool true));
                ("todo_id", Atom (SStr (str_of_UUID (todo_id todo))));
                ("title", Atom (SStr (todo_title todo)));
                ("description", Atom (opt_str (todo_description todo)));
                ("completed", Atom (SBool (todo_completed todo)))]))
    (fun e => ret (failure ("Failed to create todo: " ++ exn_str e))).

Definition list_todos_handler (user_id : UUID) (completed : option bool)
    : M (gmap string Value) :=
  try_except
    (let statement :=
       mkSelect
         (fun t =>
            (todo_user_id t =? user_id)%N &&
            match completed with
            | Some c => Bool.eqb (todo_completed t) c
            | None => true
            end)
         ByCreatedDesc in
     let* result := execute statement in
     let* todos := scalars_all result in
     ret (dict [("success", Atom (SBool true));
                ("todos",
                 DictList
                   (map (fun todo =>
                           dict [("id", SStr (str_of_UUID (todo_id todo)));
                                 ("title", SStr (todo_title todo));
                                 ("description", opt_str (todo_description todo));
                                 ("completed", SBool (todo_completed todo));
                                 ("created_at",
                                  SStr (isoformat (todo_created_at todo)))])
                        todos));
                ("count", Atom (SInt (Z.of_nat (length todos))))]))
    (fun e => ret (failure ("Failed to list todos: " ++ exn_str e))).

Definition update_todo_handler (user_id : UUID) (todo_id_str : string)
    (title description : option string) (completed : option bool)
    : M (gmap string Value) :=
  try_except
    (let* todo_uuid := parse_UUID todo_id_str in
     let* result := execute (owned_todo_query todo_uuid user_id) in
     let* todo := scalar_one_or_none result in
     match todo with
     | None =>
         ret (failure "Todo not found or you don't have permission to update it")
     | Some todo =>
         let todo :=
           mkTodo (todo_id todo) (todo_user_id todo)
                  (assign_if_provided title (todo_title todo))
                  (match description with
                   | Some d => Some d
                   | None => todo_description todo
                   end)
                  (assign_if_provided completed (todo_completed todo))
                  (todo_created_at todo) (todo_updated_at todo) in
         await session_add todo in
         await commit (Some (Update todo)) in
         let* todo := refresh todo in
         ret (dict [("success", Atom (SBool true));
                    ("todo_id", Atom (SStr (str_of_UUID (todo_id todo))));
                    ("title", Atom (SStr (todo_title todo)));
                    ("description", Atom (opt_str (todo_description todo)));
                    ("completed", Atom (SBool (todo_completed todo)))])
     end)
    (fun e =>
       if is_ValueError e then ret (failure "Invalid todo ID format")
       else ret (failure ("Failed to update todo: " ++ exn_str e))).

Definition delete_todo_handler (user_id : UUID) (todo_id_str : string)
    : M (gmap string Value) :=
  try_except
    (let* todo_uuid := parse_UUID todo_id_str in
     let* result := execute (owned_todo_query todo_uuid user_id) in
     let* todo := scalar_one_or_none result in
     match todo with
     | None =>
         ret (failure "Todo not found or you don't have permission to delete it")
     | Some todo =>
         await session_delete todo in
         await commit (Some (Delete todo)) in
         ret (dict [("success", Atom (SBool true));
                    ("message",
                     Atom (SStr ("Todo '" ++ todo_title todo
                                   ++ "' deleted successfully")))])
     end)
    (fun e =>
       if is_ValueError e then ret (failure "Invalid todo ID format")
       else ret (failure ("Failed to delete todo: " ++ exn_str e))).

Definition get_todo_handler (user_id : UUID) (todo_id_str : string)
    : M (gmap string Value) :=
  try_except
    (let* todo_uuid := parse_UUID todo_id_str in
     let* result := execute (owned_todo_query todo_uuid user_id) in
     let* todo := scalar_one_or_none result in
     match todo with
     | None =>
         ret (failure "Todo not found or you don't have permission to view it")
     | Some todo =>
         ret (dict [("success", Atom (SBool true));
                    ("todo",
                     Dict (dict [("id", SStr (str_of_UUID (todo_id todo)));
                                 ("title", SStr (todo_title todo));
                                 ("description", opt_str (todo_description todo));
                                 ("completed", SBool (todo_completed todo));
                                 ("created_at",
                                  SStr (isoformat (todo_created_at todo)));
                                 ("updated_at",
                                  SStr (isoformat (todo_updated_at todo)))]))])
     end)
    (fun e =>
       if is_ValueError e then ret (failure "Invalid todo ID format")
       else ret (failure ("Failed to get todo: " ++ exn_str e))).

End Handlers.

(** ** Tokens (jwt.py) *)

(** The settings read from the environment (config.py). *)
Record Settings := mkSettings {
  JWT_SECRET : string;
  JWT_ALGORITHM : string;
  JWT_EXPIRATION_HOURS : Z
}.

(** A signature in the symbolic model of a MAC: it records the key, the
    algorithm and the payload it was computed from, so it verifies for these
    three and for nothing else. *)
Record Signature := mkSignature {
  sig_key : string;
  sig_alg : string;
  sig_payload : gmap string Scalar
}.

#[global] Instance Signature_eq_dec : EqDecision Signature.
Proof. solve_decision. Defined.

Definition sign (key alg : string) (claims : gmap string Scalar) : Signature :=
  mkSignature key alg claims.

(** A token string, read as the compact serialisation it is: a header naming
    the algorithm, the claims and a signature; or text that does not parse. *)
Inductive Token :=
| Malformed (text : string)
| Compact (alg : string) (claims : gmap string Scalar) (signature : Signature).

(** [timegm(dt.utctimetuple())]: whole seconds since the epoch. *)
Definition timegm (t : datetime) : Z := t / 1000000.



(** A numeric claim. *)
Definition int_claim (v : Scalar) : option Z :=
  match v with SInt z => Some z | _ => None end.

Definition is_str (v : Scalar) : bool :=
  match v with SStr _ => true | _ => false end.

(** The claim checks of [jose.jwt.decode] with its default options, at the
    clock reading [now]: [iat], [nbf] and [exp] are integers when present, the
    token is not used before [nbf] nor after [exp] (it is expired when
    [exp < now], in whole seconds), no audience is expected, and [sub] and
    [jti] are strings when present. *)
Definition validate_claims (now : datetime) (claims : gmap string Scalar) : bool :=
  match claims !! "iat" with
  | Some v => bool_decide (is_Some (int_claim v))
  | None => true
  end
  && match claims !! "nbf" with
     | Some v =>
         match int_claim v with
         | Some nbf => negb (timegm now <? nbf)%Z
         | None => false
         end
     | None => true
     end
  && match claims !! "exp" with
     | Some v =>
         match int_claim v with
         | Some exp => negb (exp <? timegm now)%Z
         | None => false
         end
     | None => true
     end
  && bool_decide (claims !! "aud" = None)
  && match claims !! "sub" with Some v => is_str v | None => true end
  && match claims !! "jti" with Some v => is_str v | None => true end.

(** [jose.jwt.decode(token, key, algorithms=[...])]; [None] stands for a
    raised [JWTError]. *)
Definition jwt_decode (now : datetime) (token : Token) (key : string)
    (algorithms : list string) : option (gmap string Scalar) :=
  match token with
  | Malformed _ => None
  | Compact alg claims signature =>
      if negb (bool_decide (alg ∈ algorithms)) then None
      else if negb (bool_decide (signature = sign key alg claims)) then None
      else if negb (validate_claims now claims) then None
      else Some claims
  end.

(** [payload.get(key)] *)
Definition get (payload : gmap string Scalar) (key : string) : Scalar :=
  default SNone (payload !! key).

(** Truth value of a claim: [None], [False], [0] and [""] are false. *)
Definition truthy (v : Scalar) : bool :=
  match v with
  | SNone => false
  | SBool b => b
  | SInt z => negb (z =? 0)%Z
  | SStr s => negb (String.eqb s "")
  end.

(** What middleware.py returns for an authenticated bearer. *)
Record TokenUser := mkTokenUser {
  tk_user_id : Scalar;
  tk_email : Scalar;
  tk_token_payload : gmap string Scalar
}.

Definition INVALID_TOKEN_ERROR : string := "Invalid token".
Definition TOKEN_EXPIRED_ERROR : string := "Token has expired".

Definition unauthorized (detail : string) : Exception :=
  HTTPException 401 (DetailStr detail) [("WWW-Authenticate", "Bearer")].

(** [await session.execute(select(User).where(...))] *)
Definition execute_users (cond : User -> bool) : M (list User) :=
  await await_op OpExecute in
  fun s => (Return (List.filter cond (users s)), s).

Section Auth.

Variable settings : Settings.
Variable UUID_of_str : string -> option UUID.
Variable str_of_UUID : UUID -> string.


(** [verify_token]: the decoded payload, or [None] on [JWTError]. *)
Definition verify_token (now : datetime) (token : Token)
    : option (gmap string Scalar) :=
  jwt_decode now token (JWT_SECRET settings) [JWT_ALGORITHM settings].

(** middleware.py, [get_current_user]: [now] is the clock read by the
    library, [current_time] the later [time.time()], in microseconds. *)
Definition middleware_get_current_user (now current_time : datetime)
    (token : Token) : Result TokenUser :=
  match verify_token now token with
  | None => Raise (unauthorized INVALID_TOKEN_ERROR)
  | Some payload =>
      match default (SInt 0) (payload !! "exp") with
      | SInt exp_time =>
          if (exp_time * 1000000 <? current_time)%Z then
            Raise (unauthorized TOKEN_EXPIRED_ERROR)
          else
            let user_id := get payload "sub" in
            let email := get payload "email" in
            if negb (truthy user_id) || negb (truthy email) then
              Raise (unauthorized INVALID_TOKEN_ERROR)
            else Return (mkTokenUser user_id email payload)
      | _ => Raise (TypeError "'<' not supported between instances")
      end
  end.

(** middleware.py, [verify_user_owns_resource]. *)
Definition verify_user_owns_resource (user_id_from_token user_id_from_request : string)
    : Result bool :=
  if negb (String.eqb user_id_from_token user_id_from_request) then
    Raise (HTTPException 403
             (DetailStr "Access denied - cannot access other users' data") [])
  else Return true.

(** dependencies.py, [get_current_user]. *)
Definition get_current_user (now : datetime) (token : Token) : M User :=
  match verify_token now token with
  | None => raise (unauthorized "Invalid or expired token")
  | Some payload =>
      match get payload "sub" with
      | SNone => raise (unauthorized "Invalid token payload")
      | SStr user_id_str =>
          match UUID_of_str user_id_str with
          | None => raise (unauthorized "Invalid user ID in token")
          | Some user_id =>
              let* result :=
                execute_users (fun u => (user_id_of u =? user_id)%N) in
              let* user := scalar_one_or_none result in
              match user with
              | None => raise (unauthorized "User not found")
              | Some user => ret user
              end
          end
      | _ => raise (TypeError "UUID() argument must be a string")
      end
  end.

End Auth.

(** ** Password rules (auth.py and utils.py) *)

Section Passwords.

(** A character and the standard library's [isupper], [islower] and
    [isdigit] on it. *)
Variable char : Type.
Variables isupper islower isdigit : char -> bool.

(** [UserCreate.validate_password]: the value, or the [ValueError]. *)
Definition validate_password (v : list char) : Exception + list char :=
  if (length v <? 8)%nat then
    inl (ValueError "Password must be at least 8 characters long")
  else if negb (existsb isupper v) then
    inl (ValueError "Password must contain at least one uppercase letter")
  else if negb (existsb islower v) then
    inl (ValueError "Password must contain at least one lowercase letter")
  else if negb (existsb isdigit v) then
    inl (ValueError "Password must contain at least one digit")
  else inr v.

(** [is_valid_password] *)
Definition is_valid_password (password : list char) : bool :=
  if (length password <? 8)%nat || (128 <? length password)%nat then false
  else
    let has_upper := existsb isupper password in
    let has_lower := existsb islower password in
    let has_digit := existsb isdigit password in
    has_upper && has_lower && has_digit.

End Passwords.

(** ** More of the middleware (middleware.py) *)

(** [get_current_user_id]: the ["user_id"] entry of what [get_current_user]
    returns. *)
Definition get_current_user_id (settings : Settings) (now current_time : datetime)
    (token : Token) : Result Scalar :=
  match middleware_get_current_user settings now current_time token with
  | Return user_data => Return (tk_user_id user_data)
  | Raise e => Raise e
  end.

(** [get_optional_current_user]: the same steps written out again, each
    refusal answered with [None], the whole body inside
    [try ... except HTTPException ... except Exception] that answers [None]
    too. *)
Definition get_optional_current_user (settings : Settings)
    (now current_time : datetime) (token : Token) : option TokenUser :=
  let body : Result (option TokenUser) :=
    match verify_token settings now token with
    | None => Return None
    | Some payload =>
        match default (SInt 0) (payload !! "exp") with
        | SInt exp_time =>
            if (exp_time * 1000000 <? current_time)%Z then Return None
            else
              let user_id := get payload "sub" in
              let email := get payload "email" in
              if negb (truthy user_id) || negb (truthy email) then Return None
              else Return (Some (mkTokenUser user_id email payload))
        | _ => Raise (TypeError "'<' not supported between instances")
        end
    end in
  match body with
  | Return r => r
  | Raise _ => None
  end.

(** A route declared with [current_user: User = Depends(get_current_user)]:
    the dependency of dependencies.py runs first and its user is handed to
    the route. *)
Definition with_current_user {A} (settings : Settings)
    (UUID_of_str : string -> option UUID) (now : datetime) (token : Token)
    (route : User -> M A) : M A :=
  let* current_user := get_current_user settings UUID_of_str now token in
  route current_user.

(** ** Input helpers (utils.py) *)

Section Sanitize.

(** A character and the standard library's notion of whitespace. *)
Variable char : Type.
Variable isspace : char -> bool.

(** [s.lstrip()] *)
Fixpoint lstrip (s : list char) : list char :=
  match s with
  | [] => []
  | c :: r => if isspace c then lstrip r else s
  end.

(** [s.strip()] *)
Definition strip (s : list char) : list char :=
  rev (lstrip (rev (lstrip s))).

(** [s[:n]]: the first [n] characters, or all but the last [-n] when [n] is
    negative. *)
Definition slice_to (n : Z) (s : list char) : list char :=
  if (0 <=? n)%Z then take (Z.to_nat n) s
  else take (length s - Z.to_nat (- n)) s.

(** [sanitize_user_input] *)
Definition sanitize_user_input (input_str : list char) (max_length : Z)
    : list char :=
  let sanitized := strip input_str in
  if (max_length <? Z.of_nat (length sanitized))%Z
  then slice_to max_length sanitized
  else sanitized.

End Sanitize.

(** ** Vocabulary of the statements *)

Definition forbidden (detail : Detail) : Exception := HTTPException 403 detail [].

Definition not_found (message : string) : Exception :=
  HTTPException 404 (error_response "NOT_FOUND" message) [].

(** No awaited session call is scheduled to fail. *)
Definition healthy (s : Session) : Prop := faults s = [].

(** [id] is the primary key of the [todos] table. *)
Definition primary_key (s : Session) : Prop := NoDup (map todo_id (todos s)).

(** No row with this id belongs to [owner]: the id is unknown, or the todo
    is somebody else's. *)
Definition no_owned_row (s : Session) (owner id : UUID) : Prop :=
  Forall (fun r => todo_id r = id → todo_user_id r ≠ owner) (todos s).

(** The computation [m] run from [s] raises [e] and leaves the table as it
    was. *)
Definition rejects {A} (m : M A) (s : Session) (e : Exception) : Prop :=
  fst (m s) = Raise e ∧ todos (snd (m s)) = todos s.

(** The computation [m] run from [s] returns [a] and leaves the table as it
    was. *)
Definition answers {A} (m : M A) (s : Session) (a : A) : Prop :=
  fst (m s) = Return a ∧ todos (snd (m s)) = todos s.

(** The rows a listing is asked for: those of [owner], with the given
    [completed] flag when one is asked for. *)
Definition listed (owner : UUID) (completed : option bool) (t : Todo) : Prop :=
  todo_user_id t = owner ∧ ∀ c, completed = Some c → todo_completed t = c.

(** An entry of the ["todos"] list of [list_todos_handler]. *)
Definition todo_item (str_of_UUID : UUID → string) (isoformat : datetime → string)
    (todo : Todo) : gmap string Scalar :=
  dict [("id", SStr (str_of_UUID (todo_id todo)));
        ("title", SStr (todo_title todo));
        ("description", opt_str (todo_description todo));
        ("completed", SBool (todo_completed todo));
        ("created_at", SStr (isoformat (todo_created_at todo)))].

(** What a tool handler hands back: a dictionary that reports success, or
    [{success: false, error: message}]. *)
Definition handler_result (d : gmap string Value) : Prop :=
  d !! "success" = Some (Atom (SBool true)) ∨ ∃ message, d = failure message.

(** No row of the table has this id. *)
Definition fresh_id (s : Session) (id : UUID) : Prop :=
  Forall (fun r => todo_id r ≠ id) (todos s).

(** The rows of the table that belong to somebody else than [owner]. *)
Definition others (owner : UUID) (rows : list Todo) : list Todo :=
  List.filter (fun r => negb (todo_user_id r =? owner)%N) rows.

(** The dictionary of a todo in the answer of [get_todo_handler]. *)
Definition todo_details (str_of_UUID : UUID → string) (isoformat : datetime → string)
    (todo : Todo) : gmap string Scalar :=
  dict [("id", SStr (str_of_UUID (todo_id todo)));
        ("title", SStr (todo_title todo));
        ("description", opt_str (todo_description todo));
        ("completed", SBool (todo_completed todo));
        ("created_at", SStr (isoformat (todo_created_at todo)));
        ("updated_at", SStr (isoformat (todo_updated_at todo)))].

(** ASCII whitespace. *)
Definition ascii_isspace (c : Ascii.ascii) : bool :=
  let n := Ascii.nat_of_ascii c in
  (n =? 32)%nat || ((9 <=? n)%nat && (n <=? 13)%nat).

(** A write made on behalf of [owner]: a new row of theirs, or a change or
    removal of a stored row of theirs that keeps its id and owner. *)
Definition own_write (owner : UUID) (rows : list Todo) (w : Write) : Prop :=
  match w with
  | Insert t => todo_user_id t = owner
  | Update t' | Delete t' =>
      todo_user_id t' = owner
      ∧ ∃ t, t ∈ rows ∧ todo_id t = todo_id t' ∧ todo_user_id t = owner
  end.

(** ** Concrete instances used in the examples *)

(** The value of a hexadecimal digit. *)
Definition hex_digit (c : Ascii.ascii) : option N :=
  let n := N.of_nat (Ascii.nat_of_ascii c) in
  if (48 <=? n)%N && (n <=? 57)%N then Some (n - 48)%N
  else if (97 <=? n)%N && (n <=? 102)%N then Some (n - 87)%N
  else if (65 <=? n)%N && (n <=? 70)%N then Some (n - 55)%N
  else None.

Fixpoint hex_value (s : string) (acc : N) : option N :=
  match s with
  | EmptyString => Some acc
  | String c r =>
      match hex_digit c with
      | Some d => hex_value r (16 * acc + d)%N
      | None => None
      end
  end.

Fixpoint remove_hyphens (s : string) : string :=
  match s with
  | EmptyString => EmptyString
  | String c r =>
      if (Ascii.nat_of_ascii c =? 45)%nat then remove_hyphens r
      else String c (remove_hyphens r)
  end.

(** [UUID(s)] on the hexadecimal forms, with or without hyphens. *)
Definition hex_UUID_of_str (s : string) : option UUID :=
  let h := remove_hyphens s in
  if (String.length h =? 32)%nat then hex_value h 0%N else None.

Definition hex_char (d : N) : Ascii.ascii :=
  if (d <? 10)%N then Ascii.ascii_of_N (48 + d) else Ascii.ascii_of_N (87 + d).

Fixpoint hex_digits (n : nat) (u : N) (acc : string) : string :=
  match n with
  | O => acc
  | S n' => hex_digits n' (u / 16)%N (String (hex_char (u mod 16)%N) acc)
  end.

(** [str(uuid)]: 32 hexadecimal digits in groups of 8-4-4-4-12. *)
Definition hex_str_of_UUID (u : UUID) : string :=
  let h := hex_digits 32 u "" in
  String.substring 0 8 h ++ "-" ++ String.substring 8 4 h ++ "-"
  ++ String.substring 12 4 h ++ "-" ++ String.substring 16 4 h ++ "-"
  ++ String.substring 20 12 h.

(** A timestamp rendered as its count of microseconds. *)
Definition micros_text (t : datetime) : string := pretty t.

(** ASCII letters and digits. *)
Definition ascii_isupper (c : Ascii.ascii) : bool :=
  let n := Ascii.nat_of_ascii c in (65 <=? n)%nat && (n <=? 90)%nat.
Definition ascii_islower (c : Ascii.ascii) : bool :=
  let n := Ascii.nat_of_ascii c in (97 <=? n)%nat && (n <=? 122)%nat.
Definition ascii_isdigit (c : Ascii.ascii) : bool :=
  let n := Ascii.nat_of_ascii c in (48 <=? n)%nat && (n <=? 57)%nat.


Definition alice : User := mkUser 1%N "alice@example.com".
Definition bob : User := mkUser 2%N "bob@example.com".

Definition milk : Todo :=
  mkTodo 10%N 1%N "Buy milk" None false 1000 1000.
Definition bread : Todo :=
  mkTodo 11%N 1%N "Buy bread" (Some "wholemeal") true 3000 3500.
Definition taxes : Todo :=
  mkTodo 20%N 2%N "File taxes" None false 2000 2000.

Definition demo_session : Session :=
  mkSession [milk; taxes; bread] [alice; bob] [] [].

(** Chat services that answer without touching the session. *)
Definition echo_process_message (user_id : UUID) (message : string)
    (conversation_id : option UUID) : M ProcessResult :=
  ret (mkProcessResult true None "c-1" message []).

Definition no_conversations (user_id : UUID) (limit offset : Z)
    : M (list Conversation) := ret [].



(** A password of 129 characters with an upper-case letter, a lower-case
    letter and a digit. *)
Definition long_password : list Ascii.ascii :=
  String.list_ascii_of_string "Aa1" ++ replicate 126 (Ascii.ascii_of_nat 97).

(** * Properties *)

Example hex_roundtrip_256 : hex_UUID_of_str (hex_str_of_UUID 256%N) = Some 256%N.
Proof. vm_compute. reflexivity. Qed.

(** ** The path guard *)

Lemma guard_mismatch (u : User) (user_id : UUID) :
  user_id_of u ≠ user_id → negb (user_id_of u =? user_id)%N = true.
Proof. intros H. apply negb_true_iff, N.eqb_neq, H. Qed.

Lemma guard_match (u : User) :
  negb (user_id_of u =? user_id_of u)%N = false.
Proof. by rewrite N.eqb_refl. Qed.

(** C2: on every todo route and every chat route, a path [user_id] that is
    not the authenticated user's id raises 403 with a message fixed per
    route, and the session is left exactly as it was: no row is fetched or
    written and no session call is even logged. *)
Theorem path_mismatch_forbidden
    (UUID_of_str : string → option UUID) (str_of_UUID : UUID → string)
    (isoformat : datetime → string)
    (process_message : UUID → string → option UUID → M ProcessResult)
    (conversations_of : UUID → Z → Z → M (list Conversation))
    (u : User) (user_id : UUID) (s : Session) :
  user_id_of u ≠ user_id →
  (∀ new_id now body,
     create_todo new_id now user_id body u s
     = (Raise (forbidden (error_response "FORBIDDEN"
                            "You can only create todos for yourself")), s))
  ∧ list_todos user_id u s
    = (Raise (forbidden (error_response "FORBIDDEN"
                           "You can only access your own todos")), s)
  ∧ (∀ id,
       get_todo user_id id u s
       = (Raise (forbidden (error_response "FORBIDDEN"
                              "You can only access your own todos")), s))
  ∧ (∀ now id body,
       update_todo now user_id id body u s
       = (Raise (forbidden (error_response "FORBIDDEN"
                              "You can only update your own todos")), s))
  ∧ (∀ now id,
       toggle_todo_completion now user_id id u s
       = (Raise (forbidden (error_response "FORBIDDEN"
                              "You can only update your own todos")), s))
  ∧ (∀ id,
       delete_todo user_id id u s
       = (Raise (forbidden (error_response "FORBIDDEN"
                              "You can only delete your own todos")), s))
  ∧ (∀ request,
       chat UUID_of_str process_message user_id request u s
       = (Raise (forbidden (DetailDict "FORBIDDEN"
                              "You don't have permission to access this user's chat"
                              [])), s))
  ∧ (∀ limit offset,
       list_conversations str_of_UUID isoformat conversations_of
         user_id limit offset u s
       = (Raise (forbidden (DetailDict "FORBIDDEN"
                              "You don't have permission to access this user's conversations"
                              [])), s)).
Proof.
  intros Hne. pose proof (guard_mismatch u user_id Hne) as Hg.
  unfold create_todo, list_todos, get_todo, update_todo,
    toggle_todo_completion, delete_todo, chat, list_conversations.
  rewrite Hg. repeat split; intros; reflexivity.
Qed.

Lemma path_mismatch_forbidden_witness :
  get_todo 1%N 20%N bob demo_session
  = (Raise (forbidden (error_response "FORBIDDEN"
                         "You can only access your own todos")), demo_session)
  ∧ chat hex_UUID_of_str echo_process_message 1%N
      (mkChatRequest "show my todos" None) bob demo_session
    = (Raise (forbidden (DetailDict "FORBIDDEN"
                           "You don't have permission to access this user's chat"
                           [])), demo_session).
Proof.
  pose proof (path_mismatch_forbidden hex_UUID_of_str hex_str_of_UUID micros_text
                echo_process_message no_conversations bob 1%N demo_session) as H.
  assert (Hne : user_id_of bob ≠ 1%N) by (vm_compute; discriminate).
  destruct (H Hne) as (_ & _ & Hget & _ & _ & _ & Hchat & _).
  split; [apply Hget | apply Hchat].
Defined.

(** ** Single-resource operations on a todo that is not the caller's *)

Lemma filter_owned_none (rows : list Todo) (owner id : UUID) :
  Forall (fun r => todo_id r = id → todo_user_id r ≠ owner) rows →
  List.filter (sel_where (owned_todo_query id owner)) rows = [].
Proof.
  induction 1 as [|r rows Hr _ IH]; [done|].
  cbn. destruct (N.eqb_spec (todo_id r) id) as [Hi|Hi]; cbn; [|exact IH].
  destruct (N.eqb_spec (todo_user_id r) owner) as [Ho|Ho]; cbn; [|exact IH].
  by destruct (Hr Hi).
Qed.

Lemma run_owned_none (s : Session) (owner id : UUID) :
  no_owned_row s owner id →
  run_select (owned_todo_query id owner) (todos s) = [].
Proof. intros H. unfold run_select. cbn. by apply filter_owned_none. Qed.

(** Steps of the session monad on a healthy session. *)
Ltac healthy_session s H :=
  destruct s as [rows us fl lg]; unfold healthy in H; cbn in H; subst fl.

(** C1: when no row with the given id belongs to the caller (the id is
    unknown or the todo is another user's), the routes get, update, toggle
    and delete raise 404 NOT_FOUND and the handlers get, update and delete
    return [{success: false, error}]; the answer is a constant of the
    operation, the same whether the id is missing or foreign, carries no
    todo, and the table is unchanged. *)
Theorem not_owned_is_not_found
    (UUID_of_str : string → option UUID) (str_of_UUID : UUID → string)
    (isoformat : datetime → string)
    (u : User) (id : UUID) (s : Session) :
  healthy s →
  no_owned_row s (user_id_of u) id →
  rejects (get_todo (user_id_of u) id u) s
    (not_found "Todo not found or you don't have permission to access it")
  ∧ (∀ now body,
       rejects (update_todo now (user_id_of u) id body u) s
         (not_found "Todo not found or you don't have permission to update it"))
  ∧ (∀ now,
       rejects (toggle_todo_completion now (user_id_of u) id u) s
         (not_found "Todo not found or you don't have permission to update it"))
  ∧ rejects (delete_todo (user_id_of u) id u) s
      (not_found "Todo not found or you don't have permission to delete it")
  ∧ (∀ id_str, UUID_of_str id_str = Some id →
       answers (get_todo_handler UUID_of_str str_of_UUID isoformat
                  (user_id_of u) id_str) s
         (failure "Todo not found or you don't have permission to view it")
       ∧ (∀ title description completed,
            answers (update_todo_handler UUID_of_str str_of_UUID
                       (user_id_of u) id_str title description completed) s
              (failure "Todo not found or you don't have permission to update it"))
       ∧ answers (delete_todo_handler UUID_of_str (user_id_of u) id_str) s
           (failure "Todo not found or you don't have permission to delete it")).
Proof.
  intros Hs Hno. pose proof (run_owned_none s _ _ Hno) as Hq.
  healthy_session s Hs. cbn in Hq.
  unfold rejects, answers, get_todo, update_todo, toggle_todo_completion,
    delete_todo, get_todo_handler, update_todo_handler, delete_todo_handler,
    parse_UUID, try_except, bind, execute, await_op.
  rewrite guard_match. cbn. rewrite Hq. cbn.
  repeat split; intros; try reflexivity;
    match goal with H : UUID_of_str _ = Some _ |- _ => rewrite H end;
    cbn; rewrite Hq; cbn; done.
Qed.

Lemma not_owned_is_not_found_witness :
  rejects (get_todo 1%N 20%N alice) demo_session
    (not_found "Todo not found or you don't have permission to access it")
  ∧ rejects (get_todo 1%N 99%N alice) demo_session
      (not_found "Todo not found or you don't have permission to access it")
  ∧ answers (delete_todo_handler hex_UUID_of_str 1%N
               "00000000-0000-0000-0000-000000000014") demo_session
      (failure "Todo not found or you don't have permission to delete it").
Proof.
  assert (Hh : healthy demo_session) by reflexivity.
  assert (Hforeign : no_owned_row demo_session (user_id_of alice) 20%N)
    by (repeat constructor; vm_compute; congruence).
  assert (Hmissing : no_owned_row demo_session (user_id_of alice) 99%N)
    by (repeat constructor; vm_compute; congruence).
  pose proof (not_owned_is_not_found hex_UUID_of_str hex_str_of_UUID micros_text
                alice 20%N demo_session Hh Hforeign) as (Hget & _ & _ & _ & Hh20).
  pose proof (not_owned_is_not_found hex_UUID_of_str hex_str_of_UUID micros_text
                alice 99%N demo_session Hh Hmissing) as (Hget' & _).
  split; [exact Hget|]. split; [exact Hget'|].
  apply (Hh20 "00000000-0000-0000-0000-000000000014"). vm_compute. reflexivity.
Defined.

(** ** Listing *)

#[global] Instance created_desc_total : Total created_desc.
Proof. intros a b. unfold created_desc. lia. Qed.

#[global] Instance created_desc_trans : Transitive created_desc.
Proof. intros a b c. unfold created_desc. lia. Qed.

Lemma run_select_sorted (cond : Todo → bool) (rows : list Todo) :
  let l := run_select (mkSelect cond ByCreatedDesc) rows in
  l ≡ₚ List.filter cond rows ∧ StronglySorted created_desc l.
Proof.
  cbn. split.
  - apply merge_sort_Permutation.
  - apply (StronglySorted_merge_sort created_desc).
Qed.

Lemma elem_of_run_select (cond : Todo → bool) (rows : list Todo) (t : Todo) :
  t ∈ run_select (mkSelect cond ByCreatedDesc) rows ↔ t ∈ rows ∧ cond t = true.
Proof.
  destruct (run_select_sorted cond rows) as [Hp _]. cbn in Hp. rewrite Hp.
  rewrite !list_elem_of_In. apply filter_In.
Qed.

Lemma listed_spec (owner : UUID) (completed : option bool) (t : Todo) :
  (todo_user_id t =? owner)%N
  && match completed with
     | Some c => Bool.eqb (todo_completed t) c
     | None => true
     end = true
  ↔ listed owner completed t.
Proof.
  unfold listed. rewrite andb_true_iff, N.eqb_eq.
  destruct completed as [c|].
  - rewrite Bool.eqb_true_iff. split.
    + intros [? ?]. split; [done|]. by intros ? [= <-].
    + intros [? H]. split; [done|]. by apply H.
  - split; intros [? _]; (split; [done|]); [by intros ? [=] | done].
Qed.

(** C8: on a healthy session the route [list_todos] returns exactly the
    caller's rows and [list_todos_handler] exactly the caller's rows with the
    requested [completed] flag (all of the caller's rows when none is
    requested): each such row as often as it is stored, no row of another
    user, in descending order of [created_at]; when nothing matches the
    answer is the empty list, a success and not an error. *)
Theorem list_returns_own_todos_newest_first
    (str_of_UUID : UUID → string) (isoformat : datetime → string)
    (u : User) (s : Session) :
  healthy s →
  (∃ l,
     answers (list_todos (user_id_of u) u) s
       (success_response (DataTodos l) "Todos retrieved successfully")
     ∧ (∀ t, t ∈ l ↔ t ∈ todos s ∧ listed (user_id_of u) None t)
     ∧ l ≡ₚ List.filter (fun t => (todo_user_id t =? user_id_of u)%N) (todos s)
     ∧ StronglySorted created_desc l
     ∧ ((∀ t, t ∈ todos s → ¬ listed (user_id_of u) None t) → l = []))
  ∧ (∀ completed, ∃ l d,
       answers (list_todos_handler str_of_UUID isoformat (user_id_of u) completed) s d
       ∧ d !! "success" = Some (Atom (SBool true))
       ∧ d !! "todos" = Some (DictList (map (todo_item str_of_UUID isoformat) l))
       ∧ d !! "count" = Some (Atom (SInt (Z.of_nat (length l))))
       ∧ (∀ t, t ∈ l ↔ t ∈ todos s ∧ listed (user_id_of u) completed t)
       ∧ StronglySorted created_desc l
       ∧ ((∀ t, t ∈ todos s → ¬ listed (user_id_of u) completed t) → l = [])).
Proof.
  intros Hs. healthy_session s Hs.
  assert (Hnil : ∀ cond (P : Todo → Prop),
             (∀ t, cond t = true ↔ P t) →
             (∀ t, t ∈ rows → ¬ P t) →
             run_select (mkSelect cond ByCreatedDesc) rows = []).
  { intros cond P Hc Hnone. apply elem_of_nil_inv. intros t Ht.
    apply elem_of_run_select in Ht as [Ht Hct].
    apply (Hnone t Ht). by apply Hc. }
  split.
  - eexists. unfold answers, list_todos. rewrite guard_match.
    split; [split; reflexivity|]. cbn [todos].
    pose proof (listed_spec (user_id_of u) None) as Hl. cbn in Hl.
    split; [|split; [|split]].
    + intros t. rewrite elem_of_run_select. rewrite <- Hl.
      by rewrite andb_true_r.
    + apply run_select_sorted.
    + apply run_select_sorted.
    + apply Hnil. intros t. rewrite <- Hl. by rewrite andb_true_r.
  - intros completed. eexists _, _. unfold answers, list_todos_handler.
    split; [split; reflexivity|]. cbn [todos].
    split; [reflexivity|]. split; [reflexivity|]. split; [reflexivity|].
    split; [|split].
    + intros t. rewrite elem_of_run_select. by rewrite listed_spec.
    + apply run_select_sorted.
    + apply Hnil. intros t. apply listed_spec.
Qed.

Lemma list_returns_own_todos_newest_first_witness :
  ∃ l,
    answers (list_todos 1%N alice) demo_session
      (success_response (DataTodos l) "Todos retrieved successfully")
    ∧ (taxes ∉ l) ∧ StronglySorted created_desc l.
Proof.
  assert (Hh : healthy demo_session) by reflexivity.
  destruct (list_returns_own_todos_newest_first hex_str_of_UUID micros_text
              alice demo_session Hh) as [(l & Hans & Hmem & _ & Hsorted & _) _].
  exists l. split; [exact Hans|]. split; [|exact Hsorted].
  intros Hin. apply Hmem in Hin as [_ [Hown _]]. vm_compute in Hown. congruence.
Defined.

(** ** Updating a todo of the caller *)

(** The row written back by an [Update]. *)
Lemma filter_owned_unique (rows : list Todo) (t : Todo) :
  NoDup (map todo_id rows) → t ∈ rows →
  List.filter (sel_where (owned_todo_query (todo_id t) (todo_user_id t))) rows = [t].
Proof.
  induction rows as [|r rows IH]; intros Hnd Hin.
  - by apply elem_of_nil in Hin.
  - cbn in Hnd. apply NoDup_cons in Hnd as [Hr Hnd].
    apply elem_of_cons in Hin as [->|Hin].
    + cbn. rewrite !N.eqb_refl. cbn. f_equal.
      apply filter_owned_none, Forall_forall. intros r' Hr' Hid.
      destruct Hr. rewrite <- Hid. by apply list_elem_of_fmap_2.
    + cbn. destruct (N.eqb_spec (todo_id r) (todo_id t)) as [Hid|Hid]; cbn.
      * destruct Hr. rewrite Hid. by apply list_elem_of_fmap_2.
      * by apply IH.
Qed.

Lemma find_after_update (rows : list Todo) (t t' : Todo) :
  t ∈ rows → todo_id t' = todo_id t →
  List.find (has_id (todo_id t')) (apply_write (Update t') rows) = Some t'.
Proof.
  intros Hin Hid. induction rows as [|r rows IH].
  - by apply elem_of_nil in Hin.
  - cbn. destruct (has_id (todo_id t') r) eqn:Hr.
    + unfold has_id at 1. by rewrite N.eqb_refl.
    + rewrite Hr. apply elem_of_cons in Hin as [->|Hin].
      * unfold has_id in Hr. rewrite Hid, N.eqb_refl in Hr. discriminate.
      * by apply IH.
Qed.

Lemma update_keeps_ids (rows : list Todo) (t' : Todo) :
  map todo_id (apply_write (Update t') rows) = map todo_id rows.
Proof.
  induction rows as [|r rows IH]; [done|]. cbn. f_equal; [|exact IH].
  destruct (has_id (todo_id t') r) eqn:Hr; [|done].
  unfold has_id in Hr. apply N.eqb_eq in Hr. done.
Qed.

Lemma elem_of_update (rows : list Todo) (t t' : Todo) :
  t ∈ rows → todo_id t' = todo_id t → t' ∈ apply_write (Update t') rows.
Proof.
  intros Hin Hid. cbn. apply list_elem_of_fmap. exists t. split; [|done].
  unfold has_id. by rewrite Hid, N.eqb_refl.
Qed.

Section UpdateSteps.

Variables (rows : list Todo) (us : list User) (t t' : Todo).
Hypothesis Hpk : NoDup (map todo_id rows).
Hypothesis Hin : t ∈ rows.
Hypothesis Hid : todo_id t' = todo_id t.

Lemma execute_owned lg :
  execute (owned_todo_query (todo_id t) (todo_user_id t)) (mkSession rows us [] lg)
  = (Return [t], mkSession rows us [] (lg ++ [OpExecute])).
Proof.
  pose proof (filter_owned_unique rows t Hpk Hin) as Hf.
  unfold execute, bind, await_op, run_select. cbn in Hf |- *.
  by rewrite Hf.
Qed.

Lemma commit_update lg :
  commit (Some (Update t')) (mkSession rows us [] lg)
  = (Return tt, mkSession (apply_write (Update t') rows) us [] (lg ++ [OpCommit])).
Proof. reflexivity. Qed.

Lemma refresh_updated lg :
  refresh t' (mkSession (apply_write (Update t') rows) us [] lg)
  = (Return t', mkSession (apply_write (Update t') rows) us [] (lg ++ [OpRefresh])).
Proof.
  unfold refresh, bind, await_op. cbn [faults todos users log tail].
  by rewrite (find_after_update rows t t' Hin Hid).
Qed.

End UpdateSteps.

(** The route [update_todo] on a todo of the caller: the supplied fields are
    replaced, the omitted ones kept, [updated_at] becomes [now]; id, owner,
    [completed] and [created_at] are kept, and every other row is untouched. *)
Lemma update_todo_frame (now : datetime) (body : TodoUpdate)
    (u : User) (t : Todo) (s : Session) :
  healthy s → primary_key s → t ∈ todos s → todo_user_id t = user_id_of u →
  ∃ t',
    fst (update_todo now (user_id_of u) (todo_id t) body u s)
    = Return (success_response (DataTodo t') "Todo updated successfully")
    ∧ todos (snd (update_todo now (user_id_of u) (todo_id t) body u s))
      = map (fun r => if has_id (todo_id t) r then t' else r) (todos s)
    ∧ todo_title t' = default (todo_title t) (tu_title body)
    ∧ todo_description t'
      = match tu_description body with
        | Some d => Some d
        | None => todo_description t
        end
    ∧ todo_updated_at t' = now
    ∧ todo_id t' = todo_id t ∧ todo_user_id t' = todo_user_id t
    ∧ todo_completed t' = todo_completed t
    ∧ todo_created_at t' = todo_created_at t.
Proof.
  intros Hs Hpk Hin Hown. healthy_session s Hs.
  unfold primary_key in Hpk. cbn [todos] in *.
  eexists. unfold update_todo. rewrite guard_match. cbn [negb].
  unfold bind. rewrite <- Hown, (execute_owned rows us t Hpk Hin).
  cbn [scalar_one_or_none ret].
  rewrite commit_update.
  erewrite (refresh_updated rows us t); [|exact Hin|reflexivity].
  cbn [fst snd todos apply_write todo_id].
  repeat split; reflexivity.
Qed.

(** The handler [update_todo_handler] on a todo of the caller: the supplied
    fields (title, description, completed) are replaced and the omitted ones
    kept, but the stored [updated_at] stays what it was. *)
Lemma update_todo_handler_frame
    (UUID_of_str : string → option UUID) (str_of_UUID : UUID → string)
    (id_str : string) (title description : option string)
    (completed : option bool) (u : User) (t : Todo) (s : Session) :
  healthy s → primary_key s → t ∈ todos s → todo_user_id t = user_id_of u →
  UUID_of_str id_str = Some (todo_id t) →
  let run := update_todo_handler UUID_of_str str_of_UUID (user_id_of u) id_str
               title description completed s in
  ∃ t' d,
    fst run = Return d
    ∧ d !! "success" = Some (Atom (SBool true))
    ∧ todos (snd run) = map (fun r => if has_id (todo_id t) r then t' else r) (todos s)
    ∧ todo_title t' = default (todo_title t) title
    ∧ todo_description t'
      = match description with Some d => Some d | None => todo_description t end
    ∧ todo_completed t' = default (todo_completed t) completed
    ∧ todo_updated_at t' = todo_updated_at t
    ∧ todo_id t' = todo_id t ∧ todo_user_id t' = todo_user_id t
    ∧ todo_created_at t' = todo_created_at t.
Proof.
  intros Hs Hpk Hin Hown Hparse run. subst run. healthy_session s Hs.
  unfold primary_key in Hpk. cbn [todos] in *.
  eexists _, _. unfold update_todo_handler, try_except, parse_UUID.
  rewrite Hparse. unfold bind, ret.
  rewrite <- Hown, (execute_owned rows us t Hpk Hin).
  cbn -[commit refresh dict apply_write].
  rewrite commit_update.
  erewrite (refresh_updated rows us t); [|exact Hin|reflexivity].
  cbn [fst snd todos apply_write todo_id].
  repeat split; reflexivity.
Qed.

(** C6: the handler [update_todo_handler] does not refresh [updated_at].
    Renaming the todo "Buy milk" (last updated at 1000) through the handler
    stores the new title with [updated_at] still 1000, whereas the route
    [update_todo], called at time 5000 with the same change, stores 5000. *)
Theorem update_todo_handler_keeps_stale_timestamp :
  todos (snd (update_todo_handler hex_UUID_of_str hex_str_of_UUID 1%N
                "00000000-0000-0000-0000-00000000000a"
                (Some "Buy oat milk") None None demo_session))
  = [mkTodo 10%N 1%N "Buy oat milk" None false 1000 1000; taxes; bread]
  ∧ (fst (update_todo_handler hex_UUID_of_str hex_str_of_UUID 1%N
            "00000000-0000-0000-0000-00000000000a"
            (Some "Buy oat milk") None None demo_session)
     = Return (dict [("success", Atom (SBool true));
                     ("todo_id", Atom (SStr "00000000-0000-0000-0000-00000000000a"));
                     ("title", Atom (SStr "Buy oat milk"));
                     ("description", Atom SNone);
                     ("completed", Atom (SBool false))]))
  ∧ todos (snd (update_todo 5000 1%N 10%N
                  (mkTodoUpdate (Some "Buy oat milk") None) alice demo_session))
    = [mkTodo 10%N 1%N "Buy oat milk" None false 1000 5000; taxes; bread].
Proof. vm_compute. repeat split; reflexivity. Qed.

(** ** Toggling completion *)

Lemma toggle_step (now : datetime) (u : User) (t : Todo) (s : Session) :
  healthy s → primary_key s → t ∈ todos s → todo_user_id t = user_id_of u →
  let t' := mkTodo (todo_id t) (todo_user_id t) (todo_title t) (todo_description t)
              (negb (todo_completed t)) (todo_created_at t) now in
  toggle_todo_completion now (user_id_of u) (todo_id t) u s
  = (Return (success_response (DataTodo t') "Todo completion status updated"),
     mkSession (apply_write (Update t') (todos s)) (users s) []
       (((log s ++ [OpExecute]) ++ [OpCommit]) ++ [OpRefresh])).
Proof.
  intros Hs Hpk Hin Hown t'. healthy_session s Hs.
  unfold primary_key in Hpk. cbn [todos users log] in *.
  unfold toggle_todo_completion. rewrite guard_match. cbn [negb].
  unfold bind. rewrite <- Hown, (execute_owned rows us t Hpk Hin).
  cbn [scalar_one_or_none ret].
  rewrite commit_update.
  erewrite (refresh_updated rows us t); [|exact Hin|reflexivity].
  reflexivity.
Qed.

(** C7 (amended): on a todo of the caller, two toggles in a row bring
    [completed] back to its original value; each toggle stores the clock
    reading it was given as [updated_at], so the timestamp strictly increases
    on a toggle whenever that reading is later than the stored one. *)
Theorem toggle_twice_restores_completed (now1 now2 : datetime)
    (u : User) (t : Todo) (s : Session) :
  healthy s → primary_key s → t ∈ todos s → todo_user_id t = user_id_of u →
  ∃ t1 t2 s1,
    toggle_todo_completion now1 (user_id_of u) (todo_id t) u s
    = (Return (success_response (DataTodo t1) "Todo completion status updated"), s1)
    ∧ fst (toggle_todo_completion now2 (user_id_of u) (todo_id t) u s1)
      = Return (success_response (DataTodo t2) "Todo completion status updated")
    ∧ todo_completed t1 = negb (todo_completed t)
    ∧ todo_completed t2 = todo_completed t
    ∧ todo_updated_at t1 = now1
    ∧ todo_updated_at t2 = now2
    ∧ ((todo_updated_at t < now1)%Z → (now1 < now2)%Z →
       (todo_updated_at t < todo_updated_at t1)%Z
       ∧ (todo_updated_at t1 < todo_updated_at t2)%Z)
    ∧ t2 ∈ todos (snd (toggle_todo_completion now2 (user_id_of u) (todo_id t) u s1)).
Proof.
  intros Hs Hpk Hin Hown.
  pose proof (toggle_step now1 u t s Hs Hpk Hin Hown) as H1. cbn zeta in H1.
  set (t1 := mkTodo (todo_id t) (todo_user_id t) (todo_title t)
               (todo_description t) (negb (todo_completed t))
               (todo_created_at t) now1) in *.
  set (s1 := mkSession (apply_write (Update t1) (todos s)) (users s) []
               (((log s ++ [OpExecute]) ++ [OpCommit]) ++ [OpRefresh])) in *.
  assert (Hs1 : healthy s1) by reflexivity.
  assert (Hpk1 : primary_key s1).
  { unfold primary_key, s1. cbn [todos]. by rewrite update_keeps_ids. }
  assert (Hin1 : t1 ∈ todos s1) by (by apply (elem_of_update _ t)).
  pose proof (toggle_step now2 u t1 s1 Hs1 Hpk1 Hin1 Hown) as H2.
  cbn zeta in H2. change (todo_id t1) with (todo_id t) in H2.
  eexists t1, _, s1. split; [exact H1|]. rewrite H2. cbn [fst snd todos].
  split; [reflexivity|].
  split; [reflexivity|]. split; [cbn; apply negb_involutive|].
  split; [reflexivity|]. split; [reflexivity|].
  split; [cbn; lia|].
  apply (elem_of_update _ t1); [exact Hin1 | reflexivity].
Qed.

Lemma toggle_twice_restores_completed_witness :
  ∃ t1 t2 s1,
    toggle_todo_completion 4000 1%N 10%N alice demo_session
    = (Return (success_response (DataTodo t1) "Todo completion status updated"), s1)
    ∧ fst (toggle_todo_completion 5000 1%N 10%N alice s1)
      = Return (success_response (DataTodo t2) "Todo completion status updated")
    ∧ todo_completed t2 = false
    ∧ (1000 < todo_updated_at t1)%Z ∧ (todo_updated_at t1 < todo_updated_at t2)%Z.
Proof.
  assert (Hh : healthy demo_session) by reflexivity.
  assert (Hpk : primary_key demo_session)
    by (unfold primary_key; apply (bool_decide_unpack _); vm_compute; exact I).
  assert (Hin : milk ∈ todos demo_session) by (left).
  assert (Hown : todo_user_id milk = user_id_of alice) by reflexivity.
  destruct (toggle_twice_restores_completed 4000 5000 alice milk demo_session
              Hh Hpk Hin Hown)
    as (t1 & t2 & s1 & H1 & H2 & _ & Hc & Hu1 & Hu2 & Hlt & _).
  exists t1, t2, s1. split; [exact H1|]. split; [exact H2|].
  split; [exact Hc|]. apply Hlt; reflexivity.
Defined.

(** A toggle performed when the clock reads no later than the stored
    [updated_at] does not increase the timestamp: here the todo was last
    updated at 1000 and is toggled at 1000. *)
Lemma toggle_timestamp_not_strictly_increasing :
  ∃ t1,
    fst (toggle_todo_completion 1000 1%N 10%N alice demo_session)
    = Return (success_response (DataTodo t1) "Todo completion status updated")
    ∧ ¬ (todo_updated_at milk < todo_updated_at t1)%Z.
Proof. eexists. split; [vm_compute; reflexivity|]. vm_compute. congruence. Qed.

(** ** The handlers never raise *)

Lemma handler_result_failure (message : string) : handler_result (failure message).
Proof. right. by exists message. Qed.

Lemma handler_result_has_success (d : gmap string Value) :
  handler_result d → is_Some (d !! "success").
Proof. intros [H|[m ->]]; [by rewrite H | by eexists]. Qed.

(** A [try] whose handler always returns, returns. *)
Lemma try_except_returns {A} (P : A → Prop) (m : M A) (h : Exception → M A)
    (s : Session) :
  (∀ a s', m s = (Return a, s') → P a) →
  (∀ e s', ∃ a, h e s' = (Return a, s') ∧ P a) →
  ∃ a s', try_except m h s = (Return a, s') ∧ P a.
Proof.
  intros Hm Hh. unfold try_except. destruct (m s) as [[a|e] s'] eqn:E.
  - exists a, s'. split; [done|]. by apply (Hm a s').
  - destruct (Hh e s') as (a & Ha & HP). by exists a, s'.
Qed.

Ltac run_body :=
  unfold bind, ret, raise, execute, commit, refresh, session_add, session_delete,
    scalars_all, scalar_one_or_none, await_op, parse_UUID;
  intros; repeat case_match; simplify_eq;
  first [ apply handler_result_failure | left; reflexivity ].

Ltac run_handler :=
  intros; cbv beta; first [ eexists; split; [reflexivity|apply handler_result_failure]
                | case_match;
                  (eexists; split; [reflexivity|apply handler_result_failure]) ].

(** C9: each of the five tool handlers, on every input and whatever the
    session calls do, returns a dictionary with a [success] key and raises
    nothing: a todo id that does not parse gives
    [{success: false, error: "Invalid todo ID format"}], a todo that is not
    found gives [{success: false, error}] with the handler's not-found
    message, and a persistence error gives [{success: false, error}] with the
    handler's failure message followed by the text of the error. *)
Theorem handlers_always_return
    (UUID_of_str : string → option UUID) (str_of_UUID : UUID → string)
    (isoformat : datetime → string) (user_id : UUID) (s : Session) :
  (∀ new_id now title description, ∃ d s',
     create_todo_handler str_of_UUID new_id now user_id title description s
     = (Return d, s') ∧ handler_result d ∧ is_Some (d !! "success"))
  ∧ (∀ completed, ∃ d s',
       list_todos_handler str_of_UUID isoformat user_id completed s
       = (Return d, s') ∧ handler_result d ∧ is_Some (d !! "success"))
  ∧ (∀ id_str title description completed, ∃ d s',
       update_todo_handler UUID_of_str str_of_UUID user_id id_str
         title description completed s
       = (Return d, s') ∧ handler_result d ∧ is_Some (d !! "success"))
  ∧ (∀ id_str, ∃ d s',
       delete_todo_handler UUID_of_str user_id id_str s
       = (Return d, s') ∧ handler_result d ∧ is_Some (d !! "success"))
  ∧ (∀ id_str, ∃ d s',
       get_todo_handler UUID_of_str str_of_UUID isoformat user_id id_str s
       = (Return d, s') ∧ handler_result d ∧ is_Some (d !! "success"))
  ∧ (∀ id_str, UUID_of_str id_str = None →
       (∀ title description completed,
          update_todo_handler UUID_of_str str_of_UUID user_id id_str
            title description completed s
          = (Return (failure "Invalid todo ID format"), s))
       ∧ delete_todo_handler UUID_of_str user_id id_str s
         = (Return (failure "Invalid todo ID format"), s)
       ∧ get_todo_handler UUID_of_str str_of_UUID isoformat user_id id_str s
         = (Return (failure "Invalid todo ID format"), s))
  ∧ (∀ id_str id, UUID_of_str id_str = Some id →
       healthy s → no_owned_row s user_id id →
       (∀ title description completed,
          fst (update_todo_handler UUID_of_str str_of_UUID user_id id_str
                 title description completed s)
          = Return (failure
                      "Todo not found or you don't have permission to update it"))
       ∧ fst (delete_todo_handler UUID_of_str user_id id_str s)
         = Return (failure
                     "Todo not found or you don't have permission to delete it")
       ∧ fst (get_todo_handler UUID_of_str str_of_UUID isoformat user_id id_str s)
         = Return (failure
                     "Todo not found or you don't have permission to view it"))
  ∧ (∀ e later, faults s = Some e :: later → is_ValueError e = false →
       (∀ new_id now title description,
          fst (create_todo_handler str_of_UUID new_id now user_id
                 title description s)
          = Return (failure ("Failed to create todo: " ++ exn_str e)))
       ∧ (∀ completed,
            fst (list_todos_handler str_of_UUID isoformat user_id completed s)
            = Return (failure ("Failed to list todos: " ++ exn_str e)))
       ∧ (∀ id_str id, UUID_of_str id_str = Some id →
            (∀ title description completed,
               fst (update_todo_handler UUID_of_str str_of_UUID user_id id_str
                      title description completed s)
               = Return (failure ("Failed to update todo: " ++ exn_str e)))
            ∧ fst (delete_todo_handler UUID_of_str user_id id_str s)
              = Return (failure ("Failed to delete todo: " ++ exn_str e))
            ∧ fst (get_todo_handler UUID_of_str str_of_UUID isoformat
                     user_id id_str s)
              = Return (failure ("Failed to get todo: " ++ exn_str e)))).
Proof.
  assert (Hres : ∀ (m : M (gmap string Value)),
            (∃ d s', m s = (Return d, s') ∧ handler_result d) →
            ∃ d s', m s = (Return d, s') ∧ handler_result d
                    ∧ is_Some (d !! "success")).
  { intros m (d & s' & Hm & Hd). exists d, s'.
    auto using handler_result_has_success. }
  repeat apply conj.
  - intros. apply Hres. apply try_except_returns; [run_body | run_handler].
  - intros. apply Hres. apply try_except_returns; [run_body | run_handler].
  - intros. apply Hres. apply try_except_returns; [run_body | run_handler].
  - intros. apply Hres. apply try_except_returns; [run_body | run_handler].
  - intros. apply Hres. apply try_except_returns; [run_body | run_handler].
  - intros id_str Hbad.
    unfold update_todo_handler, delete_todo_handler, get_todo_handler,
      try_except, bind, parse_UUID.
    rewrite Hbad. by repeat split.
  - intros id_str id Hparse Hs Hno.
    pose proof (run_owned_none s _ _ Hno) as Hq.
    healthy_session s Hs. cbn in Hq.
    unfold update_todo_handler, delete_todo_handler, get_todo_handler,
      try_except, bind, parse_UUID, execute, await_op.
    rewrite Hparse. cbn. rewrite Hq. by repeat split.
  - intros e later Hf Hne. destruct s as [rows us fl lg]. cbn in Hf. subst fl.
    unfold create_todo_handler, list_todos_handler, update_todo_handler,
      delete_todo_handler, get_todo_handler, try_except, bind, parse_UUID,
      execute, commit, session_add, await_op.
    cbn. repeat split; intros;
      repeat match goal with H : UUID_of_str _ = Some _ |- _ => rewrite H end;
      cbn; rewrite ?Hne; reflexivity.
Qed.

Lemma handlers_always_return_witness :
  get_todo_handler hex_UUID_of_str hex_str_of_UUID micros_text 1%N
    "not-a-uuid" demo_session
  = (Return (failure "Invalid todo ID format"), demo_session)
  ∧ fst (delete_todo_handler hex_UUID_of_str 1%N
           "00000000-0000-0000-0000-00000000000a"
           (mkSession [milk] [alice]
              [Some (PersistenceError "OperationalError" "connection lost")] []))
    = Return (failure "Failed to delete todo: connection lost").
Proof.
  split.
  - pose proof (handlers_always_return hex_UUID_of_str hex_str_of_UUID micros_text
                  1%N demo_session) as (_ & _ & _ & _ & _ & Hbad & _).
    apply (Hbad "not-a-uuid"). vm_compute. reflexivity.
  - pose proof (handlers_always_return hex_UUID_of_str hex_str_of_UUID micros_text
                  1%N
                  (mkSession [milk] [alice]
                     [Some (PersistenceError "OperationalError" "connection lost")]
                     []))
      as (_ & _ & _ & _ & _ & _ & _ & Hfault).
    destruct (Hfault (PersistenceError "OperationalError" "connection lost") []
                eq_refl eq_refl) as (_ & _ & Hid).
    destruct (Hid "00000000-0000-0000-0000-00000000000a" 10%N) as (_ & Hdel & _).
    + vm_compute. reflexivity.
    + exact Hdel.
Defined.

(** ** Tokens *)

Section TokenProperties.

Variable settings : Settings.
Variable str_of_UUID : UUID → string.





End TokenProperties.

Section TokenClaims.

Variable settings : Settings.
Variable UUID_of_str : string → option UUID.
Variable str_of_UUID : UUID → string.





End TokenClaims.


(** ** Expiry *)




(** ** Required claims *)




(** ** The two password checks *)

Section PasswordProperties.

Variable char : Type.
Variables isupper islower isdigit : char → bool.

(** C10 (amended): [is_valid_password] accepts a password exactly when the
    [UserCreate] validator accepts it and it has at most 128 characters; so
    the two checks agree on every password of at most 128 characters. *)
Theorem is_valid_password_iff_validator_and_max_length (p : list char) :
  (is_valid_password char isupper islower isdigit p = true
   ↔ validate_password char isupper islower isdigit p = inr p
     ∧ (length p ≤ 128)%nat)
  ∧ ((length p ≤ 128)%nat →
     (is_valid_password char isupper islower isdigit p = true
      ↔ validate_password char isupper islower isdigit p = inr p)).
Proof.
  assert (H : is_valid_password char isupper islower isdigit p = true
              ↔ validate_password char isupper islower isdigit p = inr p
                ∧ (length p ≤ 128)%nat).
  { unfold is_valid_password, validate_password.
    destruct (Nat.ltb_spec (length p) 8) as [H8|H8];
      destruct (Nat.ltb_spec 128 (length p)) as [Hmax|Hmax];
      cbn [orb]; try lia.
    - split; [intros [=] | intros [[=] _]].
    - destruct (existsb isupper p), (existsb islower p), (existsb isdigit p);
        cbn [negb andb]; split;
        solve [ intros [=] | intros [[=] _] | intros _; reflexivity | lia
              | intros _; split; [reflexivity | lia] ]. }
  split; [exact H|]. intros Hlen. rewrite H. tauto.
Qed.

End PasswordProperties.

(** A password of 129 characters with all three kinds of character passes
    the [UserCreate] validator and fails [is_valid_password]. *)
Lemma validators_disagree_on_long_password :
  length long_password = 129%nat
  ∧ validate_password Ascii.ascii ascii_isupper ascii_islower ascii_isdigit
      long_password = inr long_password
  ∧ is_valid_password Ascii.ascii ascii_isupper ascii_islower ascii_isdigit
      long_password = false.
Proof. repeat split; vm_compute; reflexivity. Qed.

Lemma is_valid_password_iff_validator_and_max_length_witness :
  is_valid_password Ascii.ascii ascii_isupper ascii_islower ascii_isdigit
    (String.list_ascii_of_string "Passw0rd1") = true
  ↔ validate_password Ascii.ascii ascii_isupper ascii_islower ascii_isdigit
      (String.list_ascii_of_string "Passw0rd1")
    = inr (String.list_ascii_of_string "Passw0rd1").
Proof.
  apply (is_valid_password_iff_validator_and_max_length Ascii.ascii
           ascii_isupper ascii_islower ascii_isdigit
           (String.list_ascii_of_string "Passw0rd1")).
  vm_compute. lia.
Defined.

(** * Further properties of the routes and handlers *)

(** ** Creating, reading and deleting a todo *)

Lemma existsb_fresh (rows : list Todo) (id : UUID) :
  Forall (fun r => todo_id r ≠ id) rows → existsb (has_id id) rows = false.
Proof.
  induction 1 as [|r rows Hr _ IH]; [done|]. cbn. rewrite IH.
  unfold has_id. by apply N.eqb_neq in Hr as ->.
Qed.

Lemma find_fresh_app (rows : list Todo) (t : Todo) :
  Forall (fun r => todo_id r ≠ todo_id t) rows →
  List.find (has_id (todo_id t)) (rows ++ [t]) = Some t.
Proof.
  induction 1 as [|r rows Hr _ IH]; cbn.
  - unfold has_id. by rewrite N.eqb_refl.
  - unfold has_id at 1. by apply N.eqb_neq in Hr as ->.
Qed.

Lemma filter_fresh_app (rows : list Todo) (t : Todo) :
  Forall (fun r => todo_id r ≠ todo_id t) rows →
  List.filter (sel_where (owned_todo_query (todo_id t) (todo_user_id t)))
    (rows ++ [t]) = [t].
Proof.
  intros Hfresh. rewrite List.filter_app, filter_owned_none.
  - cbn. by rewrite !N.eqb_refl.
  - eapply Forall_impl; [exact Hfresh|]. by intros r Hr Hid.
Qed.

Lemma create_todo_run (new_id : UUID) (now : datetime) (body : TodoCreate)
    (u : User) (s : Session) :
  healthy s → fresh_id s new_id →
  let t := mkTodo new_id (user_id_of u) (tc_title body) (tc_description body)
             false now now in
  create_todo new_id now (user_id_of u) body u s
  = (Return (success_response (DataTodo t) "Todo created successfully"),
     mkSession (todos s ++ [t]) (users s) []
       (((log s ++ [OpAdd]) ++ [OpCommit]) ++ [OpRefresh])).
Proof.
  intros Hs Hfresh t. healthy_session s Hs. unfold fresh_id in Hfresh.
  cbn [todos users log] in *.
  unfold create_todo. rewrite guard_match. cbn [negb].
  unfold bind, session_add, commit, refresh, bind, await_op, new_Todo.
  cbn [todos users faults log tail todo_id apply_write].
  rewrite (existsb_fresh rows new_id Hfresh).
  pose proof (find_fresh_app rows t Hfresh) as Hfind.
  subst t. cbn [todo_id] in Hfind.
  cbn [todos users faults log tail todo_id]. by rewrite Hfind.
Qed.

Lemma get_todo_run (u : User) (t : Todo) (s : Session) :
  healthy s → primary_key s → t ∈ todos s → todo_user_id t = user_id_of u →
  get_todo (user_id_of u) (todo_id t) u s
  = (Return (success_response (DataTodo t) "Todo retrieved successfully"),
     mkSession (todos s) (users s) [] (log s ++ [OpExecute])).
Proof.
  intros Hs Hpk Hin Hown. healthy_session s Hs.
  unfold primary_key in Hpk. cbn [todos users log] in *.
  unfold get_todo. rewrite guard_match. cbn [negb].
  unfold bind. by rewrite <- Hown, (execute_owned rows us t Hpk Hin).
Qed.

(** X1: on a healthy session and with a fresh primary key, [create_todo]
    answers with the new todo and appends exactly that row: it belongs to
    the caller, carries the title and description of the request, is not
    completed, and both timestamps are the creation time. *)
Theorem create_todo_appends_new_row (new_id : UUID) (now : datetime)
    (body : TodoCreate) (u : User) (s : Session) :
  healthy s → fresh_id s new_id →
  ∃ t,
    fst (create_todo new_id now (user_id_of u) body u s)
    = Return (success_response (DataTodo t) "Todo created successfully")
    ∧ todos (snd (create_todo new_id now (user_id_of u) body u s))
      = (todos s ++ [t])%list
    ∧ todo_id t = new_id ∧ todo_user_id t = user_id_of u
    ∧ todo_title t = tc_title body ∧ todo_description t = tc_description body
    ∧ todo_completed t = false
    ∧ todo_created_at t = now ∧ todo_updated_at t = now.
Proof.
  intros Hs Hfresh. eexists.
  rewrite (create_todo_run new_id now body u s Hs Hfresh). cbn [fst snd todos].
  repeat split; reflexivity.
Qed.

Lemma create_todo_appends_new_row_witness :
  ∃ t,
    fst (create_todo 30%N 7000 1%N (mkTodoCreate "Call mum" None) alice demo_session)
    = Return (success_response (DataTodo t) "Todo created successfully")
    ∧ todo_completed t = false ∧ todo_user_id t = 1%N.
Proof.
  assert (Hh : healthy demo_session) by reflexivity.
  assert (Hf : fresh_id demo_session 30%N)
    by (repeat constructor; vm_compute; congruence).
  destruct (create_todo_appends_new_row 30%N 7000 (mkTodoCreate "Call mum" None)
              alice demo_session Hh Hf)
    as (t & Hrun & _ & _ & Hown & _ & _ & Hdone & _).
  exists t. split; [exact Hrun|]. split; [exact Hdone | exact Hown].
Defined.

(** X2: a todo that was just created can be read back: [get_todo] for the
    new id, run by the same user on the session that [create_todo] left,
    answers with the very todo that [create_todo] answered with. *)
Theorem create_then_get (new_id : UUID) (now : datetime)
    (body : TodoCreate) (u : User) (s : Session) :
  healthy s → fresh_id s new_id →
  ∃ t s',
    create_todo new_id now (user_id_of u) body u s
    = (Return (success_response (DataTodo t) "Todo created successfully"), s')
    ∧ fst (get_todo (user_id_of u) new_id u s')
      = Return (success_response (DataTodo t) "Todo retrieved successfully")
    ∧ todos (snd (get_todo (user_id_of u) new_id u s')) = todos s'.
Proof.
  intros Hs Hfresh. eexists _, _.
  split; [exact (create_todo_run new_id now body u s Hs Hfresh)|].
  unfold get_todo. rewrite guard_match. cbn [negb].
  unfold bind, execute, bind, await_op, run_select.
  cbn [todos users faults log tail sel_order].
  set (t := mkTodo new_id (user_id_of u) (tc_title body) (tc_description body)
              false now now).
  pose proof (filter_fresh_app (todos s) t Hfresh) as Hf. cbn in Hf |- *.
  by rewrite Hf.
Qed.

Lemma create_then_get_witness :
  ∃ t s',
    create_todo 30%N 7000 1%N (mkTodoCreate "Call mum" None) alice demo_session
    = (Return (success_response (DataTodo t) "Todo created successfully"), s')
    ∧ fst (get_todo 1%N 30%N alice s')
      = Return (success_response (DataTodo t) "Todo retrieved successfully").
Proof.
  assert (Hh : healthy demo_session) by reflexivity.
  assert (Hf : fresh_id demo_session 30%N)
    by (repeat constructor; vm_compute; congruence).
  destruct (create_then_get 30%N 7000 (mkTodoCreate "Call mum" None)
              alice demo_session Hh Hf) as (t & s' & Hc & Hg & _).
  by exists t, s'.
Defined.

(** X3: [get_todo] on a todo of the caller answers with the stored row as it
    is and writes nothing. *)
Theorem get_todo_returns_stored_row (u : User) (t : Todo) (s : Session) :
  healthy s → primary_key s → t ∈ todos s → todo_user_id t = user_id_of u →
  answers (get_todo (user_id_of u) (todo_id t) u) s
    (success_response (DataTodo t) "Todo retrieved successfully").
Proof.
  intros Hs Hpk Hin Hown. unfold answers.
  by rewrite (get_todo_run u t s Hs Hpk Hin Hown).
Qed.

Lemma get_todo_returns_stored_row_witness :
  answers (get_todo 1%N 11%N alice) demo_session
    (success_response (DataTodo bread) "Todo retrieved successfully").
Proof.
  apply (get_todo_returns_stored_row alice bread demo_session).
  - reflexivity.
  - unfold primary_key. apply (bool_decide_unpack _). vm_compute. exact I.
  - apply (bool_decide_unpack _). vm_compute. exact I.
  - reflexivity.
Defined.

Lemma primary_key_inj (rows : list Todo) (r t : Todo) :
  NoDup (map todo_id rows) → r ∈ rows → t ∈ rows → todo_id r = todo_id t → r = t.
Proof.
  induction rows as [|x rows IH]; intros Hnd Hr Ht Hid.
  - by apply elem_of_nil in Hr.
  - cbn in Hnd. apply NoDup_cons in Hnd as [Hx Hnd].
    apply elem_of_cons in Hr as [->|Hr]; apply elem_of_cons in Ht as [->|Ht].
    + done.
    + destruct Hx. rewrite Hid. by apply list_elem_of_fmap_2.
    + destruct Hx. rewrite <- Hid. by apply list_elem_of_fmap_2.
    + by apply IH.
Qed.

Lemma elem_of_delete (rows : list Todo) (t r : Todo) :
  r ∈ apply_write (Delete t) rows ↔ r ∈ rows ∧ todo_id r ≠ todo_id t.
Proof.
  cbn. rewrite !list_elem_of_In, filter_In. unfold has_id.
  by rewrite negb_true_iff, N.eqb_neq.
Qed.

Lemma delete_todo_run (u : User) (t : Todo) (s : Session) :
  healthy s → primary_key s → t ∈ todos s → todo_user_id t = user_id_of u →
  delete_todo (user_id_of u) (todo_id t) u s
  = (Return (success_response DataNone "Todo deleted successfully"),
     mkSession (apply_write (Delete t) (todos s)) (users s) []
       (((log s ++ [OpExecute]) ++ [OpDelete]) ++ [OpCommit])).
Proof.
  intros Hs Hpk Hin Hown. healthy_session s Hs.
  unfold primary_key in Hpk. cbn [todos users log] in *.
  unfold delete_todo. rewrite guard_match. cbn [negb].
  unfold bind. by rewrite <- Hown, (execute_owned rows us t Hpk Hin).
Qed.

(** X4: [delete_todo] on a todo of the caller removes that row and no other,
    and from then on [get_todo] for its id answers 404. *)
Theorem delete_todo_removes_row (u : User) (t : Todo) (s : Session) :
  healthy s → primary_key s → t ∈ todos s → todo_user_id t = user_id_of u →
  ∃ s',
    delete_todo (user_id_of u) (todo_id t) u s
    = (Return (success_response DataNone "Todo deleted successfully"), s')
    ∧ (∀ r, r ∈ todos s' ↔ r ∈ todos s ∧ r ≠ t)
    ∧ rejects (get_todo (user_id_of u) (todo_id t) u) s'
        (not_found "Todo not found or you don't have permission to access it").
Proof.
  intros Hs Hpk Hin Hown. eexists.
  split; [exact (delete_todo_run u t s Hs Hpk Hin Hown)|].
  cbn [todos]. split.
  - intros r. rewrite elem_of_delete. split; intros [Hr Hne]; (split; [done|]).
    + by intros ->.
    + intros Hid. apply Hne. by apply (primary_key_inj (todos s)).
  - assert (Hq : List.filter
                   (sel_where (owned_todo_query (todo_id t) (user_id_of u)))
                   (apply_write (Delete t) (todos s)) = []).
    { apply filter_owned_none, Forall_forall. intros r Hr Hid.
      apply elem_of_delete in Hr as [_ Hne]. done. }
    unfold rejects, get_todo. rewrite guard_match. cbn [negb].
    unfold bind, execute, bind, await_op, run_select.
    cbn in Hq |- *. by rewrite Hq.
Qed.

Lemma delete_todo_removes_row_witness :
  ∃ s',
    delete_todo 1%N 10%N alice demo_session
    = (Return (success_response DataNone "Todo deleted successfully"), s')
    ∧ (milk ∉ todos s') ∧ (bread ∈ todos s') ∧ (taxes ∈ todos s').
Proof.
  assert (Hh : healthy demo_session) by reflexivity.
  assert (Hpk : primary_key demo_session)
    by (unfold primary_key; apply (bool_decide_unpack _); vm_compute; exact I).
  assert (Hin : milk ∈ todos demo_session) by left.
  destruct (delete_todo_removes_row alice milk demo_session Hh Hpk Hin eq_refl)
    as (s' & Hrun & Hmem & _).
  exists s'. split; [exact Hrun|]. rewrite !Hmem. repeat split.
  - intros [_ Hne]. by apply Hne.
  - apply (bool_decide_unpack _). vm_compute. exact I.
  - discriminate.
  - apply (bool_decide_unpack _). vm_compute. exact I.
  - discriminate.
Defined.

Lemma update_todo_frame_witness :
  ∃ t',
    fst (update_todo 5000 1%N 10%N (mkTodoUpdate None (Some "semi-skimmed"))
           alice demo_session)
    = Return (success_response (DataTodo t') "Todo updated successfully")
    ∧ todo_title t' = "Buy milk"
    ∧ todo_description t' = Some "semi-skimmed"
    ∧ todo_updated_at t' = 5000.
Proof.
  assert (Hh : healthy demo_session) by reflexivity.
  assert (Hpk : primary_key demo_session)
    by (unfold primary_key; apply (bool_decide_unpack _); vm_compute; exact I).
  assert (Hin : milk ∈ todos demo_session) by left.
  destruct (update_todo_frame 5000 (mkTodoUpdate None (Some "semi-skimmed"))
              alice milk demo_session Hh Hpk Hin eq_refl)
    as (t' & Hrun & _ & Htitle & Hdesc & Hupd & _).
  exists t'. by repeat split.
Defined.

Lemma update_todo_handler_frame_witness :
  ∃ t' d,
    fst (update_todo_handler hex_UUID_of_str hex_str_of_UUID 1%N
           "00000000-0000-0000-0000-00000000000a" None None (Some true)
           demo_session)
    = Return d
    ∧ todo_completed t' = true ∧ todo_title t' = "Buy milk"
    ∧ t' ∈ todos (snd (update_todo_handler hex_UUID_of_str hex_str_of_UUID 1%N
                         "00000000-0000-0000-0000-00000000000a" None None
                         (Some true) demo_session)).
Proof.
  assert (Hh : healthy demo_session) by reflexivity.
  assert (Hpk : primary_key demo_session)
    by (unfold primary_key; apply (bool_decide_unpack _); vm_compute; exact I).
  assert (Hin : milk ∈ todos demo_session) by left.
  assert (Hparse : hex_UUID_of_str "00000000-0000-0000-0000-00000000000a"
                   = Some (todo_id milk)) by (vm_compute; reflexivity).
  destruct (update_todo_handler_frame hex_UUID_of_str hex_str_of_UUID
              "00000000-0000-0000-0000-00000000000a" None None (Some true)
              alice milk demo_session Hh Hpk Hin eq_refl Hparse)
    as (t' & d & Hrun & _ & Hrows & Htitle & _ & Hdone & _).
  exists t', d. split; [exact Hrun|]. split; [exact Hdone|].
  split; [exact Htitle|].
  change (user_id_of alice) with 1%N in Hrows. rewrite Hrows. left.
Defined.

(** X7: [toggle_todo_completion] on a todo of the caller flips [completed],
    sets [updated_at] to the time of the call and keeps the id, owner, title,
    description and [created_at]; every other row of the table stays as it
    is. *)
Theorem toggle_changes_only_completed (now : datetime)
    (u : User) (t : Todo) (s : Session) :
  healthy s → primary_key s → t ∈ todos s → todo_user_id t = user_id_of u →
  ∃ t',
    fst (toggle_todo_completion now (user_id_of u) (todo_id t) u s)
    = Return (success_response (DataTodo t') "Todo completion status updated")
    ∧ todos (snd (toggle_todo_completion now (user_id_of u) (todo_id t) u s))
      = map (fun r => if decide (r = t) then t' else r) (todos s)
    ∧ todo_completed t' = negb (todo_completed t)
    ∧ todo_updated_at t' = now
    ∧ todo_id t' = todo_id t ∧ todo_user_id t' = todo_user_id t
    ∧ todo_title t' = todo_title t ∧ todo_description t' = todo_description t
    ∧ todo_created_at t' = todo_created_at t.
Proof.
  intros Hs Hpk Hin Hown. eexists.
  rewrite (toggle_step now u t s Hs Hpk Hin Hown). cbn [fst snd todos apply_write].
  split; [reflexivity|]. split; [|repeat split; reflexivity].
  apply map_ext_in. intros r Hr. cbn [todo_id]. unfold has_id.
  destruct (decide (r = t)) as [->|Hne].
  - by rewrite N.eqb_refl.
  - destruct (N.eqb_spec (todo_id r) (todo_id t)) as [Hid|]; [|done].
    destruct Hne. apply (primary_key_inj (todos s)); try done.
    by apply list_elem_of_In.
Qed.

Lemma toggle_changes_only_completed_witness :
  ∃ t',
    fst (toggle_todo_completion 4000 1%N 11%N alice demo_session)
    = Return (success_response (DataTodo t') "Todo completion status updated")
    ∧ todo_completed t' = false ∧ todo_title t' = "Buy bread".
Proof.
  assert (Hh : healthy demo_session) by reflexivity.
  assert (Hpk : primary_key demo_session)
    by (unfold primary_key; apply (bool_decide_unpack _); vm_compute; exact I).
  assert (Hin : bread ∈ todos demo_session)
    by (apply (bool_decide_unpack _); vm_compute; exact I).
  destruct (toggle_changes_only_completed 4000 alice bread demo_session
              Hh Hpk Hin eq_refl)
    as (t' & Hrun & _ & Hdone & _ & _ & _ & Htitle & _).
  exists t'. by repeat split.
Defined.

(** ** Rows of other users *)

Lemma others_map_own (owner : UUID) (f : Todo → Todo) (rows : list Todo) :
  Forall (fun r => f r = r ∨ (todo_user_id r = owner ∧ todo_user_id (f r) = owner))
    rows →
  others owner (map f rows) = others owner rows.
Proof.
  induction 1 as [|r rows Hr _ IH]; [done|]. cbn. fold (others owner (map f rows)).
  fold (others owner rows). rewrite IH. destruct Hr as [->|[Hr Hf]]; [done|].
  by rewrite Hr, Hf, N.eqb_refl.
Qed.

Lemma others_filter_own (owner : UUID) (keep : Todo → bool) (rows : list Todo) :
  Forall (fun r => keep r = true ∨ todo_user_id r = owner) rows →
  others owner (List.filter keep rows) = others owner rows.
Proof.
  induction 1 as [|r rows Hr _ IH]; [done|]. cbn.
  fold (others owner rows). destruct (keep r) eqn:Hk; cbn.
  - fold (others owner (List.filter keep rows)). by rewrite IH.
  - destruct Hr as [|Hr]; [done|]. by rewrite Hr, N.eqb_refl.
Qed.

Lemma others_apply_write (owner : UUID) (rows : list Todo) (w : Write) :
  NoDup (map todo_id rows) → own_write owner rows w →
  others owner (apply_write w rows) = others owner rows.
Proof.
  intros Hpk Hw. destruct w as [t|t'|t']; cbn in Hw.
  - unfold others. cbn. rewrite List.filter_app. cbn.
    rewrite Hw, N.eqb_refl. cbn. apply app_nil_r.
  - destruct Hw as (Hown' & t & Hin & Hid & Hown).
    apply others_map_own, Forall_forall. intros r Hr.
    unfold has_id. destruct (N.eqb_spec (todo_id r) (todo_id t')) as [Heq|]; [|by left].
    right. split; [|done].
    rewrite (primary_key_inj rows r t Hpk Hr Hin); [done|congruence].
  - destruct Hw as (Hown' & t & Hin & Hid & Hown).
    apply others_filter_own, Forall_forall. intros r Hr.
    unfold has_id. destruct (N.eqb_spec (todo_id r) (todo_id t')) as [Heq|]; [|by left].
    right. rewrite (primary_key_inj rows r t Hpk Hr Hin); [done|congruence].
Qed.

Lemma filter_owned_singleton (rows : list Todo) (id owner : UUID) (t : Todo) :
  List.filter (sel_where (owned_todo_query id owner)) rows = [t] →
  t ∈ rows ∧ todo_id t = id ∧ todo_user_id t = owner.
Proof.
  intros Hf. assert (Hin : In t (List.filter (sel_where (owned_todo_query id owner)) rows))
    by (rewrite Hf; left; reflexivity).
  apply filter_In in Hin as [Hin Hc]. cbn in Hc.
  apply andb_true_iff in Hc as [Hi Ho]. apply N.eqb_eq in Hi, Ho.
  by rewrite list_elem_of_In.
Qed.

(** Case analysis of a route or handler run from an arbitrary session: the
    table is left as it was, or it received one write on behalf of [owner]. *)
Ltac unfold_run :=
  unfold try_except, parse_UUID;
  unfold bind, execute, commit, refresh, session_add, session_delete, bind,
    await_op, scalar_one_or_none, scalars_all, raise, ret, run_select;
  cbn [todos users faults log tail sel_order owned_todo_query].

Ltac own_rows rows id owner :=
  repeat case_match; simplify_eq; cbn [fst snd todos users]; try reflexivity;
  match goal with
  | H : List.filter _ rows = [?t], Hpk : NoDup (map todo_id rows) |- _ =>
      destruct (filter_owned_singleton rows id owner t H) as (? & ? & ?);
      apply (others_apply_write owner rows _ Hpk);
      cbn [own_write todo_user_id todo_id];
      (split; [congruence | exists t; split_and!; congruence])
  | Hpk : NoDup (map todo_id rows) |- _ =>
      apply (others_apply_write owner rows _ Hpk); reflexivity
  end.

Lemma update_todo_others (now : datetime) (path id : UUID) (body : TodoUpdate)
    (u : User) (s : Session) :
  primary_key s →
  others (user_id_of u) (todos (snd (update_todo now path id body u s)))
  = others (user_id_of u) (todos s).
Proof.
  intros Hpk. unfold primary_key in Hpk. destruct s as [rows us fl lg].
  cbn [todos] in *. unfold update_todo. unfold_run.
  own_rows rows id (user_id_of u).
Qed.

Lemma toggle_todo_others (now : datetime) (path id : UUID) (u : User) (s : Session) :
  primary_key s →
  others (user_id_of u) (todos (snd (toggle_todo_completion now path id u s)))
  = others (user_id_of u) (todos s).
Proof.
  intros Hpk. unfold primary_key in Hpk. destruct s as [rows us fl lg].
  cbn [todos] in *. unfold toggle_todo_completion. unfold_run.
  own_rows rows id (user_id_of u).
Qed.

Lemma delete_todo_others (path id : UUID) (u : User) (s : Session) :
  primary_key s →
  others (user_id_of u) (todos (snd (delete_todo path id u s)))
  = others (user_id_of u) (todos s).
Proof.
  intros Hpk. unfold primary_key in Hpk. destruct s as [rows us fl lg].
  cbn [todos] in *. unfold delete_todo. unfold_run.
  own_rows rows id (user_id_of u).
Qed.

Lemma create_todo_others (new_id : UUID) (now : datetime) (path : UUID)
    (body : TodoCreate) (u : User) (s : Session) :
  primary_key s →
  others (user_id_of u) (todos (snd (create_todo new_id now path body u s)))
  = others (user_id_of u) (todos s).
Proof.
  intros Hpk. unfold primary_key in Hpk. destruct s as [rows us fl lg].
  cbn [todos] in *. unfold create_todo, new_Todo. unfold_run.
  own_rows rows new_id (user_id_of u).
Qed.

Section HandlerIsolation.

Variable UUID_of_str : string → option UUID.
Variable str_of_UUID : UUID → string.

Lemma update_todo_handler_others (user_id : UUID) (id_str : string)
    (title description : option string) (completed : option bool) (s : Session) :
  primary_key s →
  others user_id
    (todos (snd (update_todo_handler UUID_of_str str_of_UUID user_id id_str
                   title description completed s)))
  = others user_id (todos s).
Proof.
  intros Hpk. unfold primary_key in Hpk. destruct s as [rows us fl lg].
  cbn [todos] in *. unfold update_todo_handler. unfold_run.
  destruct (UUID_of_str id_str) as [id|]; [|reflexivity].
  own_rows rows id user_id.
Qed.

Lemma delete_todo_handler_others (user_id : UUID) (id_str : string) (s : Session) :
  primary_key s →
  others user_id (todos (snd (delete_todo_handler UUID_of_str user_id id_str s)))
  = others user_id (todos s).
Proof.
  intros Hpk. unfold primary_key in Hpk. destruct s as [rows us fl lg].
  cbn [todos] in *. unfold delete_todo_handler. unfold_run.
  destruct (UUID_of_str id_str) as [id|]; [|reflexivity].
  own_rows rows id user_id.
Qed.

Lemma create_todo_handler_others (new_id : UUID) (now : datetime) (user_id : UUID)
    (title : string) (description : option string) (s : Session) :
  primary_key s →
  others user_id
    (todos (snd (create_todo_handler str_of_UUID new_id now user_id
                   title description s)))
  = others user_id (todos s).
Proof.
  intros Hpk. unfold primary_key in Hpk. destruct s as [rows us fl lg].
  cbn [todos] in *. unfold create_todo_handler, new_Todo. unfold_run.
  own_rows rows new_id user_id.
Qed.

(** X8: whatever the request and whichever session calls fail, the writing
    routes and handlers run for one user leave the rows of every other user
    exactly as they were (same rows, same order), as long as ids are unique
    in the table. *)
Theorem writes_never_touch_other_users (u : User) (s : Session) :
  primary_key s →
  (∀ new_id now path body,
     others (user_id_of u) (todos (snd (create_todo new_id now path body u s)))
     = others (user_id_of u) (todos s))
  ∧ (∀ now path id body,
       others (user_id_of u) (todos (snd (update_todo now path id body u s)))
       = others (user_id_of u) (todos s))
  ∧ (∀ now path id,
       others (user_id_of u)
         (todos (snd (toggle_todo_completion now path id u s)))
       = others (user_id_of u) (todos s))
  ∧ (∀ path id,
       others (user_id_of u) (todos (snd (delete_todo path id u s)))
       = others (user_id_of u) (todos s))
  ∧ (∀ new_id now title description,
       others (user_id_of u)
         (todos (snd (create_todo_handler str_of_UUID new_id now (user_id_of u)
                        title description s)))
       = others (user_id_of u) (todos s))
  ∧ (∀ id_str title description completed,
       others (user_id_of u)
         (todos (snd (update_todo_handler UUID_of_str str_of_UUID (user_id_of u)
                        id_str title description completed s)))
       = others (user_id_of u) (todos s))
  ∧ (∀ id_str,
       others (user_id_of u)
         (todos (snd (delete_todo_handler UUID_of_str (user_id_of u) id_str s)))
       = others (user_id_of u) (todos s)).
Proof.
  intros Hpk. repeat split; intros.
  - by apply create_todo_others.
  - by apply update_todo_others.
  - by apply toggle_todo_others.
  - by apply delete_todo_others.
  - by apply create_todo_handler_others.
  - by apply update_todo_handler_others.
  - by apply delete_todo_handler_others.
Qed.

End HandlerIsolation.

Lemma writes_never_touch_other_users_witness :
  others 2%N (todos (snd (delete_todo 2%N 10%N bob demo_session))) = [milk; bread]
  ∧ others 2%N
      (todos (snd (update_todo_handler hex_UUID_of_str hex_str_of_UUID 2%N
                     "00000000-0000-0000-0000-00000000000a"
                     (Some "mine now") None None demo_session)))
    = [milk; bread].
Proof.
  assert (Hpk : primary_key demo_session)
    by (unfold primary_key; apply (bool_decide_unpack _); vm_compute; exact I).
  destruct (writes_never_touch_other_users hex_UUID_of_str hex_str_of_UUID
              bob demo_session Hpk) as (_ & _ & _ & Hdel & _ & Hupd & _).
  split.
  - exact (Hdel 2%N 10%N).
  - exact (Hupd "00000000-0000-0000-0000-00000000000a" (Some "mine now") None None).
Defined.

(** X9: the reading routes and handlers never write: after [list_todos],
    [get_todo], [list_todos_handler] or [get_todo_handler], on any session
    and whatever fails, both tables are what they were. *)
Theorem reads_never_write
    (UUID_of_str : string → option UUID) (str_of_UUID : UUID → string)
    (isoformat : datetime → string) (u : User) (s : Session) :
  (∀ path,
     todos (snd (list_todos path u s)) = todos s
     ∧ users (snd (list_todos path u s)) = users s)
  ∧ (∀ path id,
       todos (snd (get_todo path id u s)) = todos s
       ∧ users (snd (get_todo path id u s)) = users s)
  ∧ (∀ user_id completed,
       todos (snd (list_todos_handler str_of_UUID isoformat user_id completed s))
       = todos s
       ∧ users (snd (list_todos_handler str_of_UUID isoformat user_id completed s))
         = users s)
  ∧ (∀ user_id id_str,
       todos (snd (get_todo_handler UUID_of_str str_of_UUID isoformat
                     user_id id_str s)) = todos s
       ∧ users (snd (get_todo_handler UUID_of_str str_of_UUID isoformat
                       user_id id_str s)) = users s).
Proof.
  destruct s as [rows us fl lg].
  unfold list_todos, get_todo, list_todos_handler, get_todo_handler. unfold_run.
  repeat split; intros; repeat case_match; simplify_eq; reflexivity.
Qed.

(** ** Routes and handlers side by side *)

Section SideBySide.

Variable UUID_of_str : string → option UUID.
Variable str_of_UUID : UUID → string.
Variable isoformat : datetime → string.

(** X10: asked without a [completed] filter, [list_todos_handler] lists the
    same todos in the same order as the route [list_todos], and its [count]
    is their number. *)
Theorem list_handler_agrees_with_route (u : User) (s : Session) :
  healthy s →
  ∃ l d,
    fst (list_todos (user_id_of u) u s)
    = Return (success_response (DataTodos l) "Todos retrieved successfully")
    ∧ fst (list_todos_handler str_of_UUID isoformat (user_id_of u) None s)
      = Return d
    ∧ d !! "success" = Some (Atom (SBool true))
    ∧ d !! "todos" = Some (DictList (map (todo_item str_of_UUID isoformat) l))
    ∧ d !! "count" = Some (Atom (SInt (Z.of_nat (length l)))).
Proof.
  intros Hs. healthy_session s Hs.
  assert (Hf : List.filter
                 (fun t => (todo_user_id t =? user_id_of u)%N && true) rows
               = List.filter (fun t => (todo_user_id t =? user_id_of u)%N) rows).
  { apply List.filter_ext. intros t. apply andb_true_r. }
  eexists _, _. unfold list_todos, list_todos_handler. rewrite guard_match.
  unfold_run. cbn [negb fst sel_where]. rewrite Hf.
  split; [reflexivity|]. split; [reflexivity|]. by repeat split.
Qed.

(** X11: on a healthy session and for an id text that parses, the handler
    [get_todo_handler] follows the route [get_todo]: where the route answers
    with a todo the handler answers with the details of that same todo, where
    the route raises 404 the handler reports its not-found failure, and where
    the route fails otherwise the handler reports that failure's text. *)
Theorem get_handler_agrees_with_route (u : User) (id : UUID) (id_str : string)
    (s : Session) :
  healthy s → UUID_of_str id_str = Some id →
  match fst (get_todo (user_id_of u) id u s) with
  | Return r =>
      ∃ t, r = success_response (DataTodo t) "Todo retrieved successfully"
           ∧ fst (get_todo_handler UUID_of_str str_of_UUID isoformat
                    (user_id_of u) id_str s)
             = Return (dict [("success", Atom (SBool true));
                             ("todo", Dict (todo_details str_of_UUID isoformat t))])
  | Raise (HTTPException 404 _ _) =>
      fst (get_todo_handler UUID_of_str str_of_UUID isoformat
             (user_id_of u) id_str s)
      = Return (failure "Todo not found or you don't have permission to view it")
  | Raise e =>
      fst (get_todo_handler UUID_of_str str_of_UUID isoformat
             (user_id_of u) id_str s)
      = Return (failure ("Failed to get todo: " ++ exn_str e))
  end.
Proof.
  intros Hs Hparse. healthy_session s Hs.
  unfold get_todo, get_todo_handler. rewrite guard_match.
  unfold try_except, parse_UUID. rewrite Hparse.
  unfold bind, execute, bind, await_op, scalar_one_or_none, raise, ret, run_select.
  cbn [todos users faults log tail sel_order owned_todo_query negb].
  destruct (List.filter _ rows) as [|t [|t2 rest]]; cbn [fst].
  - reflexivity.
  - by exists t.
  - reflexivity.
Qed.

(** X12: on a healthy session and for an id text that parses, the handler
    [delete_todo_handler] leaves the table exactly as the route [delete_todo]
    does, and it reports success exactly when the route returns. *)
Theorem delete_handler_agrees_with_route (u : User) (id : UUID) (id_str : string)
    (s : Session) :
  healthy s → UUID_of_str id_str = Some id →
  todos (snd (delete_todo_handler UUID_of_str (user_id_of u) id_str s))
  = todos (snd (delete_todo (user_id_of u) id u s))
  ∧ ((∃ r, fst (delete_todo (user_id_of u) id u s) = Return r)
     ↔ ∃ d, fst (delete_todo_handler UUID_of_str (user_id_of u) id_str s) = Return d
            ∧ d !! "success" = Some (Atom (SBool true))).
Proof.
  intros Hs Hparse. healthy_session s Hs.
  unfold delete_todo, delete_todo_handler. rewrite guard_match.
  unfold try_except, parse_UUID. rewrite Hparse.
  unfold bind, execute, commit, session_delete, bind, await_op,
    scalar_one_or_none, raise, ret, run_select.
  cbn [todos users faults log tail sel_order owned_todo_query negb].
  destruct (List.filter _ rows) as [|t [|t2 rest]]; cbn [fst snd todos].
  - split; [reflexivity|]. split; [by intros [? ?]|]. by intros (d & [= <-] & ?).
  - split; [reflexivity|]. split; intros _; by eexists.
  - split; [reflexivity|]. split; [by intros [? ?]|]. by intros (d & [= <-] & ?).
Qed.

End SideBySide.

Lemma list_handler_agrees_with_route_witness :
  ∃ l d,
    fst (list_todos 1%N alice demo_session)
    = Return (success_response (DataTodos l) "Todos retrieved successfully")
    ∧ fst (list_todos_handler hex_str_of_UUID micros_text 1%N None demo_session)
      = Return d
    ∧ d !! "count" = Some (Atom (SInt (Z.of_nat (length l)))).
Proof.
  destruct (list_handler_agrees_with_route hex_str_of_UUID micros_text
              alice demo_session eq_refl) as (l & d & Hr & Hh & _ & _ & Hc).
  by exists l, d.
Defined.

Lemma get_handler_agrees_with_route_witness :
  fst (get_todo_handler hex_UUID_of_str hex_str_of_UUID micros_text 1%N
         "00000000-0000-0000-0000-00000000000b" demo_session)
  = Return (dict [("success", Atom (SBool true));
                  ("todo", Dict (todo_details hex_str_of_UUID micros_text bread))]).
Proof.
  assert (Hparse : hex_UUID_of_str "00000000-0000-0000-0000-00000000000b"
                   = Some 11%N) by (vm_compute; reflexivity).
  pose proof (get_handler_agrees_with_route hex_UUID_of_str hex_str_of_UUID
                micros_text alice 11%N "00000000-0000-0000-0000-00000000000b"
                demo_session eq_refl Hparse) as H.
  assert (Hroute : fst (get_todo (user_id_of alice) 11%N alice demo_session)
                   = Return (success_response (DataTodo bread)
                               "Todo retrieved successfully"))
    by (vm_compute; reflexivity).
  rewrite Hroute in H. destruct H as (t & [= <-] & Hh). exact Hh.
Defined.

Lemma delete_handler_agrees_with_route_witness :
  todos (snd (delete_todo_handler hex_UUID_of_str 1%N
                "00000000-0000-0000-0000-00000000000b" demo_session))
  = todos (snd (delete_todo 1%N 11%N alice demo_session)).
Proof.
  assert (Hparse : hex_UUID_of_str "00000000-0000-0000-0000-00000000000b"
                   = Some 11%N) by (vm_compute; reflexivity).
  exact (proj1 (delete_handler_agrees_with_route hex_UUID_of_str alice 11%N
                  "00000000-0000-0000-0000-00000000000b" demo_session
                  eq_refl Hparse)).
Defined.

(** ** The chat route *)

Lemma lower_app (a b : string) : lower (a ++ b) = lower a ++ lower b.
Proof.
  induction a as [|c a IH]; [done|].
  change (String (lower_ascii c) (lower (a ++ b))
          = String (lower_ascii c) (lower a ++ lower b)).
  by rewrite IH.
Qed.

Lemma prefix_app (needle rest : string) : String.prefix needle (needle ++ rest) = true.
Proof.
  induction needle as [|c needle IH]; [by destruct rest|].
  change (String.prefix (String c needle) (String c (needle ++ rest)) = true).
  cbn [String.prefix]. destruct (Ascii.ascii_dec c c); [exact IH | done].
Qed.

Lemma contains_app (needle before after : string) :
  contains needle (before ++ needle ++ after) = true.
Proof.
  induction before as [|c before IH].
  - change ("" ++ needle ++ after) with (needle ++ after).
    destruct (needle ++ after) eqn:E; cbn [contains]; rewrite <- E;
      by rewrite prefix_app.
  - change (String c before ++ needle ++ after)
      with (String c (before ++ needle ++ after)).
    cbn [contains]. rewrite IH. apply orb_true_r.
Qed.

Section ChatRoute.

Variable UUID_of_str : string → option UUID.
Variable process_message : UUID → string → option UUID → M ProcessResult.

(** X13: a conversation id that is given, not empty and not the text of a
    UUID makes [chat] raise 400 INVALID_INPUT, naming the offending id; the
    session is untouched and the answer does not depend on the chat service,
    which is not reached. *)
Theorem chat_rejects_malformed_conversation_id (u : User) (message cid : string)
    (s : Session) :
  cid ≠ "" → UUID_of_str cid = None →
  chat UUID_of_str process_message (user_id_of u)
    (mkChatRequest message (Some cid)) u s
  = (Raise (HTTPException 400
              (DetailDict "INVALID_INPUT" "Invalid conversation ID format"
                 [("conversation_id", cid)]) []), s).
Proof.
  intros Hne Hbad. unfold chat. rewrite guard_match. cbn [negb cr_conversation_id].
  destruct cid as [|c cid]; [done|]. by rewrite Hbad.
Qed.

(** The conversation handed to the service for a request. *)
Lemma chat_run (u : User) (request : ChatRequest) (conv : option UUID)
    (s : Session) :
  (cr_conversation_id request = None ∧ conv = None)
  ∨ (cr_conversation_id request = Some "" ∧ conv = None)
  ∨ (∃ cid c, cr_conversation_id request = Some cid ∧ cid ≠ ""
              ∧ UUID_of_str cid = Some c ∧ conv = Some c) →
  chat UUID_of_str process_message (user_id_of u) request u s
  = (let* result := process_message (user_id_of u) (cr_message request) conv in
     if negb (pr_success result) then
       let error_message :=
         default "An unexpected error occurred" (pr_error result) in
       if contains "not found" (lower error_message)
          || contains "access denied" (lower error_message)
       then raise (HTTPException 404 (DetailDict "NOT_FOUND" error_message []) [])
       else raise (HTTPException 500 (DetailDict "INTERNAL_ERROR" error_message []) [])
     else
       ret (mkChatResponse true
              (Some (mkChatResponseData (pr_conversation_id result)
                       (pr_response result) (pr_tool_calls result)))
              "Message processed successfully")) s.
Proof.
  intros Hconv. unfold chat. rewrite guard_match. cbn [negb].
  destruct Hconv as [[-> ->]|[[-> ->]|(cid & c & -> & Hne & Hparse & ->)]];
    try reflexivity.
  destruct cid as [|ch cid]; [done|]. by rewrite Hparse.
Qed.

(** X14: once the path and the conversation id are accepted, [chat] hands
    the message to the service under the authenticated user's id and maps
    its answer: a reported success becomes the success response carrying the
    service's conversation id, reply and tool calls; a reported failure is
    never answered as a success but raised as 404 NOT_FOUND or 500
    INTERNAL_ERROR with the service's message (or the stock message when
    there is none); a message that contains "not found" in any letter case
    gives 404. *)
Theorem chat_maps_service_outcome (u : User) (request : ChatRequest)
    (conv : option UUID) (s s' : Session) (result : ProcessResult) :
  (cr_conversation_id request = None ∧ conv = None)
  ∨ (cr_conversation_id request = Some "" ∧ conv = None)
  ∨ (∃ cid c, cr_conversation_id request = Some cid ∧ cid ≠ ""
              ∧ UUID_of_str cid = Some c ∧ conv = Some c) →
  process_message (user_id_of u) (cr_message request) conv s = (Return result, s') →
  (pr_success result = true →
   chat UUID_of_str process_message (user_id_of u) request u s
   = (Return (mkChatResponse true
                (Some (mkChatResponseData (pr_conversation_id result)
                         (pr_response result) (pr_tool_calls result)))
                "Message processed successfully"), s'))
  ∧ (pr_success result = false →
     let message := default "An unexpected error occurred" (pr_error result) in
     (chat UUID_of_str process_message (user_id_of u) request u s
      = (Raise (HTTPException 404 (DetailDict "NOT_FOUND" message []) []), s')
      ∨ chat UUID_of_str process_message (user_id_of u) request u s
        = (Raise (HTTPException 500 (DetailDict "INTERNAL_ERROR" message []) []), s'))
     ∧ (∀ before word after,
          message = before ++ word ++ after → lower word = "not found" →
          chat UUID_of_str process_message (user_id_of u) request u s
          = (Raise (HTTPException 404 (DetailDict "NOT_FOUND" message []) []), s'))).
Proof.
  intros Hconv Hrun. rewrite (chat_run u request conv s Hconv).
  unfold bind. rewrite Hrun. split; intros Hok; rewrite Hok; cbn [negb].
  - reflexivity.
  - cbv zeta. set (message := default _ (pr_error result)). split.
    + destruct (_ || _); [by left | by right].
    + intros before word after Hmsg Hword.
      assert (Hc : contains "not found" (lower message) = true)
        by (rewrite Hmsg, !lower_app, Hword; apply contains_app).
      by rewrite Hc.
Qed.

End ChatRoute.

(** A chat service that reports a missing conversation. *)
Lemma chat_rejects_malformed_conversation_id_witness :
  chat hex_UUID_of_str echo_process_message 1%N
    (mkChatRequest "add milk" (Some "latest")) alice demo_session
  = (Raise (HTTPException 400
              (DetailDict "INVALID_INPUT" "Invalid conversation ID format"
                 [("conversation_id", "latest")]) []), demo_session).
Proof.
  apply (chat_rejects_malformed_conversation_id hex_UUID_of_str
           echo_process_message alice "add milk" "latest" demo_session).
  - discriminate.
  - vm_compute. reflexivity.
Defined.

Lemma chat_maps_service_outcome_witness :
  chat hex_UUID_of_str echo_process_message 1%N
    (mkChatRequest "add milk" None) alice demo_session
  = (Return (mkChatResponse true
               (Some (mkChatResponseData "c-1" "add milk" []))
               "Message processed successfully"), demo_session).
Proof.
  refine (proj1 (chat_maps_service_outcome hex_UUID_of_str echo_process_message
                   alice (mkChatRequest "add milk" None) None
                   demo_session demo_session
                   (mkProcessResult true None "c-1" "add milk" []) _ eq_refl)
            eq_refl).
  left. split; reflexivity.
Defined.
